(** * caffe2/python/snapshot.py: Job, SnapshotManager,
      MultiNodeSnapshotManager, JobRunner and epoch_limiter.

    Shallow embedding.  Python objects that are mutated and shared
    (TaskOutput handles, snapshot managers) live in a heap inside the
    [World]; the execution context (the workspace blobs and the
    checkpoint store) is part of the same world.  Every Python statement
    that may raise runs in the exception-and-state monad [M]: an
    exception keeps the world as it was when it was raised. *)

From Stdlib Require Import ZArith String Ascii Lia.
From stdpp Require Import base gmap strings list.

Local Open Scope Z_scope.

(** ** Values of the execution context *)

(** A blob reference ([core.BlobReference]) is the blob's name. *)
Definition BlobReference := string.
Definition Node := string.

(** Content of a workspace blob, as far as the module uses it. *)
Inductive value :=
| VBool (b : bool)              (* bool tensor, e.g. CountDown's output *)
| VCounter (c : Z)              (* counter created by CreateCounter *)
| VNames (l : list string)      (* string tensor of blob names *)
| VTensor (z : Z).              (* any other blob, e.g. model weights *)

(** Operators used by the nets built in this module. *)
Inductive Op :=
| CreateCounter (out : BlobReference) (init_count : Z)
| CountDown (counter out : BlobReference)
| GetAllBlobNames (out : BlobReference) (include_shared : bool)
| Load (outs : list BlobReference) (db db_type : string) (absolute_path : bool)
| Save (ins : list BlobReference) (db db_type : string) (absolute_path : bool).

(** [core.Net(name)] with the operators added to it, in order. *)
Record Net := mkNet { net_name : string; net_ops : list Op }.

(** A [TaskOutput] is an object: [to_ref] is its identity in the heap of
    output cells, [to_name] the blob it reports. *)
Record TaskOutput := mkTaskOutput { to_ref : nat; to_name : BlobReference }.

Record Task := mkTask {
  task_node : option Node;          (* Node.current() when created *)
  task_step : option Net;
  task_outputs : list TaskOutput }.

Inductive WorkspaceType := PRIVATE | GLOBAL.

Record TaskGroup := mkTaskGroup {
  tg_workspace_type : WorkspaceType;
  tg_tasks : list Task }.

Definition TaskGroup_new (wt : WorkspaceType) : TaskGroup := mkTaskGroup wt [].

(** [TaskGroup.used_nodes]: the nodes of its tasks, in order, without
    repetitions (tasks created outside any [Node] use the default node). *)
Definition default_node : Node := "local".

Definition used_nodes (g : TaskGroup) : list Node :=
  foldl (fun used t =>
           let n := default (default_node) (task_node t) in
           if decide (n ∈ used) then used else used ++ [n]) [] (tg_tasks g).

(** ** SnapshotManager and MultiNodeSnapshotManager objects *)

Record SnapshotManager := mkSnapshotManager {
  sm_db : string;
  sm_db_type : string;
  sm_net : Net;
  sm_blob_names : BlobReference;
  sm_names_output : option TaskOutput }.

(** [SnapshotManager.__init__]: [AddExternalInput('blob_names')] returns
    the reference to blob ["blob_names"]. *)
Definition SnapshotManager_new (db db_type : string) : SnapshotManager :=
  {| sm_db := db; sm_db_type := db_type;
     sm_net := mkNet "!!snapshot_mngr" [];
     sm_blob_names := "blob_names";
     sm_names_output := None |}.

(** [_node_managers] is [None] until [init] first runs; the managers are
    references to SnapshotManager objects. *)
Record MultiNodeSnapshotManager := mkMultiNode {
  mn_node_managers : option (list (Node * nat));
  mn_db_prefix : string;
  mn_db_type : string }.

Definition MultiNodeSnapshotManager_new (db_prefix db_type : string) :=
  mkMultiNode None db_prefix db_type.

(** ** The world and the run log *)

(** Which [client.run] call of [JobRunner.__call__] ran a group: a ghost
    label recorded next to the group, used to state ordering properties. *)
Inductive Label :=
| LInitGroup | LSnapInit | LSnapSave (epoch : nat) | LSnapLoad (epoch : nat)
| LEpochGroup (epoch : nat) | LExitGroup.

Inductive Event :=
| EvRun (l : Label) (g : TaskGroup)     (* client.run(...) *)
| EvFetch (o : TaskOutput).             (* o.fetch() *)

Record World := mkWorld {
  w_outputs : gmap nat value;                  (* resolved TaskOutput cells *)
  w_next : nat;                                (* next fresh object id *)
  w_ws : gmap string value;                    (* workspace blobs *)
  w_db : gmap string (gmap string value);      (* checkpoint store *)
  w_sms : gmap nat SnapshotManager;            (* SnapshotManager objects *)
  w_mns : gmap nat MultiNodeSnapshotManager;   (* MultiNode objects *)
  w_log : list Event }.

Definition set_outputs o w := mkWorld o (w_next w) (w_ws w) (w_db w) (w_sms w) (w_mns w) (w_log w).
Definition set_next n w := mkWorld (w_outputs w) n (w_ws w) (w_db w) (w_sms w) (w_mns w) (w_log w).
Definition set_ws s w := mkWorld (w_outputs w) (w_next w) s (w_db w) (w_sms w) (w_mns w) (w_log w).
Definition set_db d w := mkWorld (w_outputs w) (w_next w) (w_ws w) d (w_sms w) (w_mns w) (w_log w).
Definition set_sms m w := mkWorld (w_outputs w) (w_next w) (w_ws w) (w_db w) m (w_mns w) (w_log w).
Definition set_mns m w := mkWorld (w_outputs w) (w_next w) (w_ws w) (w_db w) (w_sms w) m (w_log w).
Definition set_log l w := mkWorld (w_outputs w) (w_next w) (w_ws w) (w_db w) (w_sms w) (w_mns w) l.

Definition empty_world : World := mkWorld ∅ 0 ∅ ∅ ∅ ∅ [].

(** ** Exceptions and the monad *)

Inductive Exc :=
| AssertionError          (* a failed [assert] *)
| NameError               (* an unbound local variable *)
| ExecutionError          (* a failure reported by the executor *)
| ValueError              (* truth value of a multi-element array *)
| IndexError              (* indexing past the end of a list *)
| OutOfFuel.              (* the model's bound on loop iterations *)

Inductive Result (A : Type) :=
| Ok (a : A) (w : World)
| Err (e : Exc) (w : World).
Arguments Ok {A} a w.
Arguments Err {A} e w.

(** The object state after a call, whether it returned or raised. *)
Definition result_world {A} (r : Result A) : World :=
  match r with
  | Ok _ w => w
  | Err _ w => w
  end.

Definition M (A : Type) : Type := World -> Result A.

Global Instance M_ret : MRet M := fun A a w => Ok a w.
Global Instance M_bind : MBind M := fun A B k m w =>
  match m w with
  | Ok a w' => k a w'
  | Err e w' => Err e w'
  end.

Definition raise {A} (e : Exc) : M A := fun w => Err e w.
Definition get : M World := fun w => Ok w w.
Definition modify (f : World -> World) : M unit := fun w => Ok tt (f w).

(** [assert b]: raises AssertionError when [b] is false. *)
Definition assert (b : bool) : M unit :=
  if b then mret tt else raise AssertionError.

Fixpoint mapM {A B} (f : A -> M B) (l : list A) : M (list B) :=
  match l with
  | [] => mret []
  | x :: l' => y ← f x; ys ← mapM f l'; mret (y :: ys)
  end.

Fixpoint forM_ {A} (l : list A) (f : A -> M unit) : M unit :=
  match l with
  | [] => mret tt
  | x :: l' => f x;; forM_ l' f
  end.

Definition fresh : M nat :=
  w ← get; modify (set_next (S (w_next w)));; mret (w_next w).

Definition log (ev : Event) : M unit :=
  modify (fun w => set_log (w_log w ++ [ev]) w).

(** ** Tasks and their outputs *)

(** [Task(step=..., outputs=[...])]: one fresh TaskOutput object per
    output blob; [node] is [Node.current()] where the task is created. *)
Definition Task_new (node : option Node) (step : option Net)
    (outputs : list BlobReference) : M Task :=
  outs ← mapM (fun b => r ← fresh; mret (mkTaskOutput r b)) outputs;
  mret (mkTask node step outs).

(** [task.outputs()[0]] *)
Definition first_output (t : Task) : M TaskOutput :=
  match task_outputs t with
  | o :: _ => mret o
  | [] => raise IndexError
  end.

(** ** The executor *)

(** Modelled from the spec: the operators' kernels are not part of
    snapshot.py.  One workspace holds every blob (workspace types and
    nodes do not separate them here).  [CountDown] follows the spec's
    "decrements the counter and emits a boolean reached-zero output",
    with the reading fixed by the spec's scenario (a counter created at
    2 signals at the third epoch): the output is true when the counter
    is already at zero as the epoch's countdown runs.  [GetAllBlobNames]
    lists every blob, its own output blob included (operators create
    their output blobs before they run).  [Load] restores the named blobs
    of one checkpoint, [Save] writes one checkpoint of the named blobs. *)
Definition run_op (op : Op) : M unit :=
  w ← get;
  match op with
  | CreateCounter out c => modify (set_ws (<[out := VCounter c]> (w_ws w)))
  | CountDown counter out =>
      match w_ws w !! counter with
      | Some (VCounter c) =>
          modify (set_ws (<[out := VBool (c <=? 0)]>
                            (<[counter := VCounter (c - 1)]> (w_ws w))))
      | _ => raise ExecutionError
      end
  | GetAllBlobNames out _ =>
      let names : list string := elements (dom (w_ws w) ∪ {[out]} : gset string) in
      modify (set_ws (<[out := VNames names]> (w_ws w)))
  | Load outs db _ _ =>
      match w_db w !! db with
      | Some ckpt =>
          kvs ← mapM (fun b => match ckpt !! b with
                               | Some v => mret (b, v)
                               | None => raise ExecutionError
                               end) outs;
          modify (set_ws (list_to_map kvs ∪ w_ws w))
      | None => raise ExecutionError
      end
  | Save ins db _ _ =>
      kvs ← mapM (fun b => match w_ws w !! b with
                           | Some v => mret (b, v)
                           | None => raise ExecutionError
                           end) ins;
      modify (set_db (<[db := list_to_map kvs]> (w_db w)))
  end.

(** Modelled from the spec: running a task runs its step, then resolves
    each of its outputs to the current value of the output's blob. *)
Definition run_task (t : Task) : M unit :=
  match task_step t with
  | Some net => forM_ (net_ops net) run_op
  | None => mret tt
  end;;
  forM_ (task_outputs t) (fun o =>
    w ← get;
    match w_ws w !! to_name o with
    | Some v => modify (set_outputs (<[to_ref o := v]> (w_outputs w)))
    | None => raise ExecutionError
    end).

(** What [client.run] receives: a Task, a TaskGroup, or the [None] that a
    repeated [MultiNodeSnapshotManager.init] returns. *)
Inductive Runnable := RTask (t : Task) | RGroup (g : TaskGroup) | RNone.

Definition as_group (r : Runnable) : option TaskGroup :=
  match r with
  | RTask t => Some (mkTaskGroup PRIVATE [t])
  | RGroup g => Some g
  | RNone => None
  end.

(** Modelled from the spec: [client.run(x)] is the blocking
    [execute(task_group)] of the executor; the call is logged with the
    label of the JobRunner step that makes it. *)
Definition client_run (l : Label) (r : Runnable) : M unit :=
  match as_group r with
  | Some g => log (EvRun l g);; forM_ (tg_tasks g) run_task
  | None => raise ExecutionError
  end.

(** Modelled from the spec: [TaskOutput.fetch()] yields the resolved value;
    an output whose task has not run is unresolved, and fetching it is a
    precondition error. *)
Definition fetch (o : TaskOutput) : M value :=
  log (EvFetch o);;
  w ← get;
  match w_outputs w !! to_ref o with
  | Some v => mret v
  | None => raise AssertionError
  end.

(** Python truth value of a fetched blob, as [any(...)] uses it. *)
Definition truthy (v : value) : M bool :=
  match v with
  | VBool b => mret b
  | VCounter c | VTensor c => mret (negb (c =? 0))
  | VNames [] => mret false
  | VNames [s] => mret (negb (bool_decide (s = "")))
  | VNames _ => raise ValueError
  end.

(** ** Job *)

Record Job := mkJob {
  init_group : TaskGroup;
  epoch_group : TaskGroup;
  exit_group : TaskGroup;
  stop_signals : list TaskOutput }.

Definition Job_new : Job :=
  mkJob (TaskGroup_new GLOBAL) (TaskGroup_new PRIVATE) (TaskGroup_new PRIVATE) [].

Definition add_task (t : Task) (g : TaskGroup) : TaskGroup :=
  mkTaskGroup (tg_workspace_type g) (tg_tasks g ++ [t]).

Definition add_init_task (t : Task) (j : Job) : Job :=
  mkJob (add_task t (init_group j)) (epoch_group j) (exit_group j) (stop_signals j).
Definition add_epoch_task (t : Task) (j : Job) : Job :=
  mkJob (init_group j) (add_task t (epoch_group j)) (exit_group j) (stop_signals j).

(** The argument of [add_stop_signal], a Python object of any class. *)
Inductive PyObject :=
| PyBlobReference (b : BlobReference)
| PyTaskOutput (o : TaskOutput)
| PyOther.

Definition add_stop_signal (self : Job) (output : PyObject) : M Job :=
  '(self, output) ←
    match output with
    | PyBlobReference b =>
        t ← Task_new None None [b];
        let self := add_epoch_task t self in
        o ← first_output t;
        mret (self, PyTaskOutput o)
    | _ => mret (self, output)
    end;
  match output with
  | PyTaskOutput o =>
      mret (mkJob (init_group self) (epoch_group self) (exit_group self)
                  (stop_signals self ++ [o]))
  | _ => raise AssertionError
  end.

(** Several [job.add_stop_signal(x)] calls, one after the other, as a job
    builder makes them. *)
Fixpoint add_stop_signals (self : Job) (outputs : list PyObject) : M Job :=
  match outputs with
  | [] => mret self
  | output :: outputs' =>
      self' ← add_stop_signal self output;
      add_stop_signals self' outputs'
  end.

(** ** epoch_limiter *)

(** Called inside [with Job() as job:], so the countdown task lands in the
    group that is current there, [job.epoch_group].  The counter and flag
    blobs carry the names core.Net generates for the operators' outputs. *)
Definition epoch_limiter (job : Job) (num_epochs : Z) : M Job :=
  let counter := "epoch_counter_init_auto_0" in
  let init_net := mkNet "epoch_counter_init" [CreateCounter counter (num_epochs - 1)] in
  t ← Task_new None (Some init_net) [];
  let job := add_init_task t job in
  let finished := "epoch_countdown_auto_0" in
  let epoch_net := mkNet "epoch_countdown" [CountDown counter finished] in
  t' ← Task_new None (Some epoch_net) [finished];
  let job := add_epoch_task t' job in
  output ← first_output t';
  add_stop_signal job (PyTaskOutput output).

(** ** Checkpoint names: ['%s.%06d' % (db, epoch)] *)

Definition digit_char (d : nat) : ascii := ascii_of_nat (48 + d).

(** Decimal digits of [n], most significant first, prepended to [acc]. *)
Fixpoint decimal_aux (fuel n : nat) (acc : string) : string :=
  match fuel with
  | O => acc
  | S fuel' =>
      let acc' := String (digit_char (n mod 10)) acc in
      if (n <? 10)%nat then acc' else decimal_aux fuel' (n / 10) acc'
  end.

(** [%d] of a natural number. *)
Definition decimal (n : nat) : string := decimal_aux (S n) n EmptyString.

Fixpoint zeros (k : nat) : string :=
  match k with
  | O => EmptyString
  | S k' => String "0" (zeros k')
  end.

(** [%06d]: [%d] left-padded with zeros to at least six characters. *)
Definition pct_06d (n : nat) : string :=
  String.append (zeros (6 - String.length (decimal n))) (decimal n).

(** [SnapshotManager._dbname] *)
Definition _dbname (self : SnapshotManager) (epoch : nat) : string :=
  String.append (sm_db self) (String.append "." (pct_06d epoch)).

(** Reading a numeral back: its characters are decimal digits, and its
    value, most significant digit first. *)
Definition is_digit (c : ascii) : bool :=
  (48 <=? nat_of_ascii c)%nat && (nat_of_ascii c <=? 57)%nat.

Fixpoint all_digits (s : string) : bool :=
  match s with
  | EmptyString => true
  | String c s' => is_digit c && all_digits s'
  end.

Fixpoint value_aux (acc : nat) (s : string) : nat :=
  match s with
  | EmptyString => acc
  | String c s' => value_aux (acc * 10 + (nat_of_ascii c - 48)) s'
  end.

Definition decimal_value (s : string) : nat := value_aux 0 s.

(** ** SnapshotManager methods, on a reference to the object *)

Definition get_sm (self : nat) : M SnapshotManager :=
  w ← get;
  match w_sms w !! self with
  | Some s => mret s
  | None => raise ExecutionError
  end.

Definition put_sm (self : nat) (s : SnapshotManager) : M unit :=
  modify (fun w => set_sms (<[self := s]> (w_sms w)) w).

Definition SnapshotManager_alloc (db db_type : string) : M nat :=
  r ← fresh; put_sm r (SnapshotManager_new db db_type);; mret r.

Definition set_names_output (o : option TaskOutput) (s : SnapshotManager) :=
  mkSnapshotManager (sm_db s) (sm_db_type s) (sm_net s) (sm_blob_names s) o.

(** [SnapshotManager.init]; [node] is [Node.current()] at the call. *)
Definition SnapshotManager_init (node : option Node) (self : nat)
    (nodes : option (list Node)) (retrieve_from_epoch : option nat) : M Task :=
  assert (match nodes with
          | None => true
          | Some l => (length l =? 1)%nat
          end);;
  s ← get_sm self;
  let net := mkNet "get_blob_list"
    [match retrieve_from_epoch with
     | None => GetAllBlobNames (sm_blob_names s) false
     | Some e => Load [sm_blob_names s] (_dbname s e) (sm_db_type s) true
     end] in
  task ← Task_new node (Some net) [sm_blob_names s];
  o ← first_output task;
  put_sm self (set_names_output (Some o) s);;
  mret task.

(** [.tolist()] of the fetched blob-name tensor. *)
Definition tolist (v : value) : M (list string) :=
  match v with
  | VNames l => mret l
  | _ => raise ExecutionError
  end.

(** [SnapshotManager.blob_list] *)
Definition blob_list (self : nat) : M (list string) :=
  s ← get_sm self;
  match sm_names_output s with
  | None => raise AssertionError
  | Some o => v ← fetch o; tolist v
  end.

(** [SnapshotManager.load] *)
Definition SnapshotManager_load (node : option Node) (self : nat) (epoch : nat) : M Task :=
  names ← blob_list self;
  s ← get_sm self;
  let net := mkNet "get_blob_list" [Load names (_dbname s epoch) (sm_db_type s) true] in
  Task_new node (Some net) [].

(** [SnapshotManager.save] *)
Definition SnapshotManager_save (node : option Node) (self : nat) (epoch : nat) : M Task :=
  names ← blob_list self;
  s ← get_sm self;
  let net := mkNet "snapshot_save" [Save names (_dbname s epoch) (sm_db_type s) true] in
  Task_new node (Some net) [].

(** ** MultiNodeSnapshotManager *)

(** [os.path.join(a, b)] on POSIX. *)
Definition os_path_join (a b : string) : string :=
  if String.prefix "/" b then b
  else if bool_decide (a = EmptyString) then String.append a b
  else if bool_decide (String.get (String.length a - 1) a = Some "/"%char)
  then String.append a b
  else String.append a (String.append "/" b).

Definition get_mn (self : nat) : M MultiNodeSnapshotManager :=
  w ← get;
  match w_mns w !! self with
  | Some m => mret m
  | None => raise ExecutionError
  end.

Definition put_mn (self : nat) (m : MultiNodeSnapshotManager) : M unit :=
  modify (fun w => set_mns (<[self := m]> (w_mns w)) w).

Definition set_node_managers (nms : option (list (Node * nat))) (m : MultiNodeSnapshotManager) :=
  mkMultiNode nms (mn_db_prefix m) (mn_db_type m).

(** [_task_group]: inside [with TaskGroup(GLOBAL)], one call of [func]
    per recorded node under [with Node(node)]; each per-node method builds
    exactly one Task, which the enclosing group collects. *)
Definition _task_group (self : nat) (func : option Node -> nat -> M Task) : M TaskGroup :=
  m ← get_mn self;
  match mn_node_managers m with
  | None => raise AssertionError
  | Some nms =>
      tasks ← mapM (fun '(node, manager) => func (Some node) manager) nms;
      mret (mkTaskGroup GLOBAL tasks)
  end.

(** [MultiNodeSnapshotManager.init].  The per-node calls receive
    [nodes=[node]] with [node] the loop variable left over from the loop,
    i.e. the last node; with no node at all the name is unbound. *)
Definition MultiNodeSnapshotManager_init (self : nat) (nodes : list Node)
    (retrieve_from_epoch : option nat) : M Runnable :=
  m ← get_mn self;
  match mn_node_managers m with
  | Some nms =>
      assert (bool_decide (map fst nms = nodes));;
      mret RNone
  | None =>
      put_mn self (set_node_managers (Some []) m);;
      forM_ nodes (fun node =>
        manager ← SnapshotManager_alloc (os_path_join (mn_db_prefix m) node) (mn_db_type m);
        m' ← get_mn self;
        put_mn self (set_node_managers
                       (Some (default [] (mn_node_managers m') ++ [(node, manager)])) m'));;
      match last nodes with
      | None => raise NameError
      | Some node =>
          g ← _task_group self (fun n mgr =>
                 SnapshotManager_init n mgr (Some [node]) retrieve_from_epoch);
          mret (RGroup g)
      end
  end.

Definition MultiNodeSnapshotManager_load (self : nat) (epoch : nat) : M TaskGroup :=
  _task_group self (fun n mgr => SnapshotManager_load n mgr epoch).

Definition MultiNodeSnapshotManager_save (self : nat) (epoch : nat) : M TaskGroup :=
  _task_group self (fun n mgr => SnapshotManager_save n mgr epoch).

(** ** JobRunner *)

(** The [snapshot_manager] a JobRunner holds: either class, by reference. *)
Inductive SnapRef := SingleManager (r : nat) | MultiNodeManager (r : nat).

Definition snap_init (s : SnapRef) (nodes : list Node) (retrieve_from_epoch : option nat)
    : M Runnable :=
  match s with
  | SingleManager r => t ← SnapshotManager_init None r (Some nodes) retrieve_from_epoch; mret (RTask t)
  | MultiNodeManager r => MultiNodeSnapshotManager_init r nodes retrieve_from_epoch
  end.

Definition snap_load (s : SnapRef) (epoch : nat) : M Runnable :=
  match s with
  | SingleManager r => t ← SnapshotManager_load None r epoch; mret (RTask t)
  | MultiNodeManager r => g ← MultiNodeSnapshotManager_load r epoch; mret (RGroup g)
  end.

Definition snap_save (s : SnapRef) (epoch : nat) : M Runnable :=
  match s with
  | SingleManager r => t ← SnapshotManager_save None r epoch; mret (RTask t)
  | MultiNodeManager r => g ← MultiNodeSnapshotManager_save r epoch; mret (RGroup g)
  end.

Record JobRunner := mkJobRunner {
  job : Job;
  snapshot : option SnapRef;
  resume_from_epoch : option nat }.

(** [any(stop_signals)]: truth values taken left to right, up to the
    first true one. *)
Fixpoint py_any (vs : list value) : M bool :=
  match vs with
  | [] => mret false
  | v :: vs' => b ← truthy v; if (b : bool) then mret true else py_any vs'
  end.

(** The [while True] loop of [JobRunner.__call__]; [fuel] bounds the
    number of iterations. *)
Fixpoint epoch_loop (fuel : nat) (self : JobRunner) (epoch : nat) : M nat :=
  match fuel with
  | O => raise OutOfFuel
  | S fuel' =>
      client_run (LEpochGroup epoch) (RGroup (epoch_group (job self)));;
      stop_signals ← mapM fetch (stop_signals (job self));
      match snapshot self with
      | Some s => t ← snap_save s epoch; client_run (LSnapSave epoch) t
      | None => mret tt
      end;;
      stop ← py_any stop_signals;
      if (stop : bool) then mret epoch else epoch_loop fuel' self (S epoch)
  end.

(** [JobRunner.__call__(client)] *)
Definition JobRunner_call (fuel : nat) (self : JobRunner) : M nat :=
  let from_scratch := match resume_from_epoch self with None => true | Some _ => false end in
  (if from_scratch then client_run LInitGroup (RGroup (init_group (job self)))
   else mret tt);;
  match snapshot self with
  | Some s =>
      r ← snap_init s (used_nodes (init_group (job self))) (resume_from_epoch self);
      client_run LSnapInit r;;
      match resume_from_epoch self with
      | None => t ← snap_save s 0; client_run (LSnapSave 0) t
      | Some e => t ← snap_load s e; client_run (LSnapLoad e) t
      end
  | None => mret tt
  end;;
  let epoch := match resume_from_epoch self with None => 1%nat | Some e => S e end in
  epoch ← epoch_loop fuel self epoch;
  client_run LExitGroup (RGroup (exit_group (job self)));;
  mret epoch.

(** ** Reading the run log *)

Definition is_fetch (ev : Event) : Prop :=
  match ev with EvFetch _ => True | EvRun _ _ => False end.

(** The labels of the [client.run] calls, in order. *)
Definition run_labels (l : list Event) : list Label :=
  omap (fun ev => match ev with EvRun lb _ => Some lb | EvFetch _ => None end) l.

(** The first epoch the loop runs. *)
Definition first_epoch (self : JobRunner) : nat :=
  match resume_from_epoch self with None => 1%nat | Some e => S e end.

(** The log of one iteration of the epoch loop at epoch [e]. *)
Definition iteration_log (self : JobRunner) (e : nat) (seg : list Event) : Prop :=
  match snapshot self with
  | Some _ =>
      exists fs g, Forall is_fetch fs /\
        seg = EvRun (LEpochGroup e) (epoch_group (job self))
              :: map EvFetch (stop_signals (job self)) ++ fs ++ [EvRun (LSnapSave e) g]
  | None =>
      seg = EvRun (LEpochGroup e) (epoch_group (job self))
            :: map EvFetch (stop_signals (job self))
  end.

(** The log of [JobRunner.__call__] before the loop. *)
Definition prologue_log (self : JobRunner) (pre : list Event) : Prop :=
  match snapshot self, resume_from_epoch self with
  | None, None => pre = [EvRun LInitGroup (init_group (job self))]
  | None, Some _ => pre = []
  | Some _, None =>
      exists fs0 g1 fs g2, Forall is_fetch fs0 /\ Forall is_fetch fs /\
        pre = [EvRun LInitGroup (init_group (job self))] ++ fs0 ++
              [EvRun LSnapInit g1] ++ fs ++ [EvRun (LSnapSave 0) g2]
  | Some _, Some e =>
      exists fs0 g1 fs g2, Forall is_fetch fs0 /\ Forall is_fetch fs /\
        pre = fs0 ++ [EvRun LSnapInit g1] ++ fs ++ [EvRun (LSnapLoad e) g2]
  end.

(** * Example runs *)

(** A world holding one SnapshotManager, with prefix ["run"], at
    reference 100. *)
Definition demo_world : World :=
  set_sms {[100%nat := SnapshotManager_new "run" "minidb"]} (set_next 200 empty_world).

(** [with Job() as job: epoch_limiter(2)], built in [demo_world]. *)
Definition demo_build : Result Job := epoch_limiter Job_new 2 demo_world.

Definition demo_job : Job :=
  match demo_build with
  | Ok j _ => j
  | Err _ _ => Job_new
  end.

(** [JobRunner(job, snapshot_manager)] run from scratch, then a second
    runner resuming from epoch 1 on the state the first run left. *)
Definition demo_runner : JobRunner :=
  mkJobRunner demo_job (Some (SingleManager 100)) None.

Definition demo_run : Result nat := JobRunner_call 10 demo_runner (result_world demo_build).

Definition demo_resume_runner : JobRunner :=
  mkJobRunner demo_job (Some (SingleManager 100)) (Some 1%nat).

Definition demo_resume : Result nat :=
  JobRunner_call 10 demo_resume_runner (result_world demo_run).

(** A manager at reference 100 whose names output (cell 7) holds two
    blob names. *)
Definition demo_named_world : World :=
  set_outputs {[7%nat := VNames ["blob_names"; "w"]]}
    (set_sms {[100%nat := set_names_output (Some (mkTaskOutput 7 "blob_names"))
                            (SnapshotManager_new "run" "minidb")]}
       (set_next 200 empty_world)).

(** A fresh MultiNodeSnapshotManager with prefix ["ckpt"] at reference 0. *)
Definition demo_mn_world : World :=
  set_mns {[0%nat := MultiNodeSnapshotManager_new "ckpt" "minidb"]} (set_next 1 empty_world).

(** The same job run from scratch without a snapshot manager. *)
Definition demo_plain_runner : JobRunner := mkJobRunner demo_job None None.

Definition demo_plain_run : Result nat :=
  JobRunner_call 10 demo_plain_runner (result_world demo_build).

(** [init(["a", "b"])] on the fresh MultiNodeSnapshotManager, then the
    returned group run, which resolves each node manager's names. *)
Definition demo_mn_init : Result Runnable :=
  MultiNodeSnapshotManager_init 0 ["a"; "b"] None demo_mn_world.

Definition demo_mn_ready : World :=
  match demo_mn_init with
  | Ok r w => result_world (client_run LSnapInit r w)
  | Err _ w => w
  end.

(** * Proofs *)

(** ** The monad *)

Lemma bind_Ok {A B} (m : M A) (k : A -> M B) w b w' :
  (m ≫= k) w = Ok b w' -> exists a w1, m w = Ok a w1 /\ k a w1 = Ok b w'.
Proof.
  unfold mbind, M_bind. destruct (m w) as [a w1|e w1]; [eauto|discriminate].
Qed.

Lemma bind_of_Ok {A B} (m : M A) (k : A -> M B) w a w1 :
  m w = Ok a w1 -> (m ≫= k) w = k a w1.
Proof. intros H. unfold mbind, M_bind. now rewrite H. Qed.

Lemma bind_of_Err {A B} (m : M A) (k : A -> M B) w e w1 :
  m w = Err e w1 -> (m ≫= k) w = Err e w1.
Proof. intros H. unfold mbind, M_bind. now rewrite H. Qed.

Ltac inv_bind H :=
  let a := fresh "a" in let w := fresh "w" in
  let H1 := fresh "H" in let H2 := fresh "H" in
  apply bind_Ok in H; destruct H as (a & w & H1 & H2).

(** ** Computations that log only events of a given kind *)

Definition logs_only (P : Event -> Prop) {A} (m : M A) : Prop :=
  forall w a w', m w = Ok a w' ->
    exists evs, w_log w' = w_log w ++ evs /\ Forall P evs.

Abbreviation fetch_only := (logs_only is_fetch).

Lemma logs_only_ret P {A} (a : A) : logs_only P (mret a).
Proof. intros w b w' H. inversion H; subst. exists []. now rewrite app_nil_r. Qed.

Lemma logs_only_raise P {A} (e : Exc) : logs_only P (A:=A) (raise e).
Proof. intros w b w' H. discriminate. Qed.

Lemma logs_only_get P : logs_only P get.
Proof. intros w b w' H. inversion H; subst. exists []. now rewrite app_nil_r. Qed.

Lemma logs_only_modify P (f : World -> World) :
  (forall w, w_log (f w) = w_log w) -> logs_only P (modify f).
Proof.
  intros Hf w b w' H. inversion H; subst. exists []. now rewrite app_nil_r, Hf.
Qed.

Lemma logs_only_bind P {A B} (m : M A) (k : A -> M B) :
  logs_only P m -> (forall a, logs_only P (k a)) -> logs_only P (m ≫= k).
Proof.
  intros Hm Hk w b w' H. inv_bind H.
  destruct (Hm _ _ _ H0) as (fs1 & E1 & F1).
  destruct (Hk _ _ _ _ H1) as (fs2 & E2 & F2).
  exists (fs1 ++ fs2). split.
  - now rewrite E2, E1, app_assoc.
  - now apply Forall_app.
Qed.

Lemma logs_only_mapM P {A B} (f : A -> M B) (l : list A) :
  (forall x, logs_only P (f x)) -> logs_only P (mapM f l).
Proof.
  intros Hf. induction l as [|x l IH]; simpl.
  - apply logs_only_ret.
  - apply logs_only_bind; [apply Hf|intros y].
    apply logs_only_bind; [apply IH|intros ys]. apply logs_only_ret.
Qed.

Lemma logs_only_forM_ P {A} (l : list A) (f : A -> M unit) :
  (forall x, logs_only P (f x)) -> logs_only P (forM_ l f).
Proof.
  intros Hf. induction l as [|x l IH]; simpl.
  - apply logs_only_ret.
  - apply logs_only_bind; [apply Hf|intros _]. apply IH.
Qed.

Lemma fetch_only_fetch (o : TaskOutput) : fetch_only (fetch o).
Proof.
  intros w v w' H.
  unfold fetch, log, modify, get, mbind, M_bind, mret, M_ret, raise in H.
  cbn in H. destruct (w_outputs w !! to_ref o); inversion H; subst.
  exists [EvFetch o]. split; [reflexivity|]. repeat constructor.
Qed.

Create HintDb logs_only.
#[export] Hint Resolve logs_only_ret logs_only_raise logs_only_get
  fetch_only_fetch : logs_only.

Ltac logs_only_tac :=
  repeat match goal with
  | |- logs_only _ (mbind _ _) => apply logs_only_bind; [|intro]
  | |- logs_only _ (mapM _ _) => apply logs_only_mapM; intro
  | |- logs_only _ (forM_ _ _) => apply logs_only_forM_; intro
  | |- logs_only _ (modify _) => apply logs_only_modify; intro; reflexivity
  | |- logs_only _ (match ?x with _ => _ end) => destruct x
  | |- logs_only _ (let _ := _ in _) => cbv zeta
  | |- logs_only _ _ => solve [eauto with logs_only]
  end.

Lemma logs_only_run_op P (op : Op) : logs_only P (run_op op).
Proof. unfold run_op. logs_only_tac. Qed.

Lemma logs_only_run_task P (t : Task) : logs_only P (run_task t).
Proof. unfold run_task. logs_only_tac. all: try apply logs_only_run_op. Qed.

Lemma fetch_only_fresh : fetch_only fresh.
Proof. unfold fresh. logs_only_tac. Qed.

Lemma fetch_only_Task_new node step outs : fetch_only (Task_new node step outs).
Proof. unfold Task_new. logs_only_tac. all: try apply fetch_only_fresh. Qed.

Lemma fetch_only_first_output t : fetch_only (first_output t).
Proof. unfold first_output. logs_only_tac. Qed.

Lemma fetch_only_get_sm self : fetch_only (get_sm self).
Proof. unfold get_sm. logs_only_tac. Qed.

Lemma fetch_only_put_sm self s : fetch_only (put_sm self s).
Proof. unfold put_sm. logs_only_tac. Qed.

Lemma fetch_only_assert b : fetch_only (assert b).
Proof. unfold assert. logs_only_tac. Qed.

Lemma fetch_only_tolist v : fetch_only (tolist v).
Proof. unfold tolist. logs_only_tac. Qed.

#[export] Hint Resolve logs_only_run_op logs_only_run_task fetch_only_fresh
  fetch_only_Task_new fetch_only_first_output fetch_only_get_sm
  fetch_only_put_sm fetch_only_assert fetch_only_tolist : logs_only.

Lemma fetch_only_blob_list self : fetch_only (blob_list self).
Proof. unfold blob_list. logs_only_tac. Qed.
#[export] Hint Resolve fetch_only_blob_list : logs_only.

Lemma fetch_only_SnapshotManager_init node self nodes r :
  fetch_only (SnapshotManager_init node self nodes r).
Proof. unfold SnapshotManager_init. logs_only_tac. Qed.

Lemma fetch_only_SnapshotManager_load node self e :
  fetch_only (SnapshotManager_load node self e).
Proof. unfold SnapshotManager_load. logs_only_tac. Qed.

Lemma fetch_only_SnapshotManager_save node self e :
  fetch_only (SnapshotManager_save node self e).
Proof. unfold SnapshotManager_save. logs_only_tac. Qed.

Lemma fetch_only_get_mn self : fetch_only (get_mn self).
Proof. unfold get_mn. logs_only_tac. Qed.

Lemma fetch_only_put_mn self m : fetch_only (put_mn self m).
Proof. unfold put_mn. logs_only_tac. Qed.

Lemma fetch_only_SnapshotManager_alloc db t : fetch_only (SnapshotManager_alloc db t).
Proof. unfold SnapshotManager_alloc. logs_only_tac. Qed.

#[export] Hint Resolve fetch_only_SnapshotManager_init fetch_only_SnapshotManager_load
  fetch_only_SnapshotManager_save fetch_only_get_mn fetch_only_put_mn
  fetch_only_SnapshotManager_alloc : logs_only.

Lemma fetch_only__task_group self func :
  (forall n mgr, fetch_only (func n mgr)) -> fetch_only (_task_group self func).
Proof. intros Hf. unfold _task_group. logs_only_tac. all: try apply Hf. Qed.

Lemma fetch_only_snap_init s nodes r : fetch_only (snap_init s nodes r).
Proof.
  destruct s; unfold snap_init, MultiNodeSnapshotManager_init; logs_only_tac.
  apply fetch_only__task_group. intros. logs_only_tac.
Qed.

Lemma fetch_only_snap_load s e : fetch_only (snap_load s e).
Proof.
  destruct s; unfold snap_load, MultiNodeSnapshotManager_load; logs_only_tac.
  apply fetch_only__task_group. intros. logs_only_tac.
Qed.

Lemma fetch_only_snap_save s e : fetch_only (snap_save s e).
Proof.
  destruct s; unfold snap_save, MultiNodeSnapshotManager_save; logs_only_tac.
  apply fetch_only__task_group. intros. logs_only_tac.
Qed.

(** ** The log of the JobRunner's steps *)

Lemma quiet_log {A} (m : M A) w a w' :
  logs_only (fun _ => False) m -> m w = Ok a w' -> w_log w' = w_log w.
Proof.
  intros Hq H. destruct (Hq _ _ _ H) as (evs & E & F).
  destruct evs as [|ev evs]; [now rewrite E, app_nil_r|]. now inversion F.
Qed.

Lemma client_run_log l r w u w' :
  client_run l r w = Ok u w' ->
  exists g, as_group r = Some g /\ w_log w' = w_log w ++ [EvRun l g].
Proof.
  unfold client_run. destruct (as_group r) as [g|]; [|discriminate].
  intros H. inv_bind H. unfold log, modify in H0. inversion H0; subst.
  exists g. split; [reflexivity|].
  rewrite (quiet_log _ _ _ _ (logs_only_forM_ _ _ _ (logs_only_run_task _)) H1).
  reflexivity.
Qed.

Lemma fetch_log o w v w' :
  fetch o w = Ok v w' -> w_log w' = w_log w ++ [EvFetch o].
Proof.
  intros H.
  unfold fetch, log, modify, get, mbind, M_bind, mret, M_ret, raise in H.
  cbn in H. destruct (w_outputs w !! to_ref o); inversion H; subst. reflexivity.
Qed.

Lemma mapM_fetch_log os w vs w' :
  mapM fetch os w = Ok vs w' -> w_log w' = w_log w ++ map EvFetch os.
Proof.
  revert w vs. induction os as [|o os IH]; intros w vs H; simpl in H.
  - inversion H; subst. now rewrite app_nil_r.
  - inv_bind H. inv_bind H1. inversion H2; subst.
    rewrite (IH _ _ H), (fetch_log _ _ _ _ H0). simpl. now rewrite <- app_assoc.
Qed.

Lemma py_any_world vs w b w' : py_any vs w = Ok b w' -> w' = w.
Proof.
  revert w b. induction vs as [|v vs IH]; intros w b H; simpl in H.
  - now inversion H.
  - inv_bind H.
    assert (w0 = w) as ->.
    { destruct v as [b1|c|l|c]; simpl in H0; try (inversion H0; reflexivity).
      destruct l as [|s1 [|s2 l]]; inversion H0; reflexivity. }
    destruct a; [now inversion H1|]. eapply IH; eauto.
Qed.

Lemma Forall_is_fetch_labels fs : Forall is_fetch fs -> run_labels fs = [].
Proof.
  induction 1 as [|ev fs Hev _ IH]; [reflexivity|].
  destruct ev; [contradiction|]. exact IH.
Qed.

Lemma run_labels_app l1 l2 : run_labels (l1 ++ l2) = run_labels l1 ++ run_labels l2.
Proof. unfold run_labels. apply omap_app. Qed.

Lemma run_labels_fetches os : run_labels (map EvFetch os) = [].
Proof. induction os; simpl; auto. Qed.

(** One iteration, then either the stop or the rest of the loop. *)
Lemma epoch_loop_log fuel self epoch w e w' :
  epoch_loop fuel self epoch w = Ok e w' ->
  (epoch <= e)%nat /\
  exists segs, w_log w' = w_log w ++ concat segs /\
    Forall2 (iteration_log self) (seq epoch (S (e - epoch))) segs.
Proof.
  revert epoch w. induction fuel as [|fuel IH]; intros epoch w H; [discriminate|].
  simpl in H.
  apply bind_Ok in H as (u1 & w1 & Hrun & H).
  destruct (client_run_log _ _ _ _ _ Hrun) as (g & Hg & L1).
  inversion Hg; subst g.
  apply bind_Ok in H as (vs & w2 & Hfetch & H).
  pose proof (mapM_fetch_log _ _ _ _ Hfetch) as L2.
  apply bind_Ok in H as (u2 & w3 & Hsave & H).
  assert (exists seg, w_log w3 = w_log w ++ seg /\ iteration_log self epoch seg)
    as (seg & L3 & Hseg).
  { unfold iteration_log. destruct (snapshot self) as [s|].
    - apply bind_Ok in Hsave as (t & w4 & Hbuild & Hrun2).
      destruct (fetch_only_snap_save s epoch _ _ _ Hbuild) as (fs & Lf & Ff).
      destruct (client_run_log _ _ _ _ _ Hrun2) as (g & _ & L4).
      eexists. split; [|exists fs, g; split; [exact Ff|reflexivity]].
      rewrite L4, Lf, L2, L1. simpl. now rewrite <- !app_assoc.
    - inversion Hsave; subst. eexists. split; [|reflexivity].
      rewrite L2, L1. now rewrite <- app_assoc. }
  apply bind_Ok in H as (stop & w4 & Hany & H).
  apply py_any_world in Hany. subst w4.
  destruct stop.
  - inversion H; subst. split; [lia|].
    exists [seg]. rewrite Nat.sub_diag. simpl. rewrite app_nil_r.
    split; [exact L3|]. constructor; [exact Hseg|constructor].
  - destruct (IH _ _ H) as (He & segs & L5 & F5). split; [lia|].
    exists (seg :: segs). simpl. split.
    + rewrite L5, L3. now rewrite <- app_assoc.
    + replace (e - epoch)%nat with (S (e - S epoch)) by lia.
      simpl. constructor; [exact Hseg|exact F5].
Qed.

Lemma loop_and_exit_log fuel self k w e w' :
  (epoch ← epoch_loop fuel self k;
   client_run LExitGroup (RGroup (exit_group (job self)));; mret epoch) w = Ok e w' ->
  (k <= e)%nat /\
  exists segs, w_log w' = w_log w ++ concat segs ++ [EvRun LExitGroup (exit_group (job self))] /\
    Forall2 (iteration_log self) (seq k (S (e - k))) segs.
Proof.
  intros H.
  apply bind_Ok in H as (e1 & w1 & Hloop & H).
  apply bind_Ok in H as (u & w2 & Hexit & H). inversion H; subst.
  destruct (epoch_loop_log _ _ _ _ _ _ Hloop) as (Hle & segs & L1 & F1).
  destruct (client_run_log _ _ _ _ _ Hexit) as (g & Hg & L2). inversion Hg; subst g.
  split; [exact Hle|]. exists segs. split; [|exact F1].
  rewrite L2, L1. now rewrite <- app_assoc.
Qed.

Lemma JobRunner_call_log fuel self w e w' :
  JobRunner_call fuel self w = Ok e w' ->
  (first_epoch self <= e)%nat /\
  exists pre segs,
    w_log w' = w_log w ++ pre ++ concat segs
               ++ [EvRun LExitGroup (exit_group (job self))] /\
    prologue_log self pre /\
    Forall2 (iteration_log self) (seq (first_epoch self) (S (e - first_epoch self))) segs.
Proof.
  unfold JobRunner_call, prologue_log, first_epoch. cbv zeta.
  destruct (resume_from_epoch self) as [r|] eqn:Er;
    destruct (snapshot self) as [s|] eqn:Es; cbv beta iota; intros H.
  - (* resumed, with a snapshot manager *)
    apply bind_Ok in H as (u0 & w0 & H0 & H). inversion H0; subst w0.
    apply bind_Ok in H as (u1 & w1 & Hpro & H).
    apply bind_Ok in Hpro as (rn & w2 & Hinit & Hpro).
    apply bind_Ok in Hpro as (u2 & w3 & Hrun1 & Hpro).
    apply bind_Ok in Hpro as (t & w4 & Hload & Hrun2).
    destruct (fetch_only_snap_init _ _ _ _ _ _ Hinit) as (fs0 & L0 & F0).
    destruct (client_run_log _ _ _ _ _ Hrun1) as (g1 & _ & L1).
    destruct (fetch_only_snap_load _ _ _ _ _ Hload) as (fs & L2 & F2).
    destruct (client_run_log _ _ _ _ _ Hrun2) as (g2 & _ & L3).
    destruct (loop_and_exit_log _ _ _ _ _ _ H) as (Hle & segs & L4 & F4).
    split; [exact Hle|].
    exists (fs0 ++ [EvRun LSnapInit g1] ++ fs ++ [EvRun (LSnapLoad r) g2]), segs.
    split; [|split; [exists fs0, g1, fs, g2; auto|exact F4]].
    rewrite L4, L3, L2, L1, L0. now rewrite <- !app_assoc.
  - (* resumed, no snapshot manager *)
    apply bind_Ok in H as (u0 & w0 & H0 & H). inversion H0; subst w0.
    apply bind_Ok in H as (u1 & w1 & H1 & H). inversion H1; subst w1.
    destruct (loop_and_exit_log _ _ _ _ _ _ H) as (Hle & segs & L4 & F4).
    split; [exact Hle|]. exists [], segs. auto.
  - (* from scratch, with a snapshot manager *)
    apply bind_Ok in H as (u0 & w0 & Hinitg & H).
    destruct (client_run_log _ _ _ _ _ Hinitg) as (g0 & Hg0 & L0'). inversion Hg0; subst g0.
    apply bind_Ok in H as (u1 & w1 & Hpro & H).
    apply bind_Ok in Hpro as (rn & w2 & Hinit & Hpro).
    apply bind_Ok in Hpro as (u2 & w3 & Hrun1 & Hpro).
    apply bind_Ok in Hpro as (t & w4 & Hsave & Hrun2).
    destruct (fetch_only_snap_init _ _ _ _ _ _ Hinit) as (fs0 & L0 & F0).
    destruct (client_run_log _ _ _ _ _ Hrun1) as (g1 & _ & L1).
    destruct (fetch_only_snap_save _ _ _ _ _ Hsave) as (fs & L2 & F2).
    destruct (client_run_log _ _ _ _ _ Hrun2) as (g2 & _ & L3).
    destruct (loop_and_exit_log _ _ _ _ _ _ H) as (Hle & segs & L4 & F4).
    split; [exact Hle|].
    exists ([EvRun LInitGroup (init_group (job self))] ++ fs0 ++ [EvRun LSnapInit g1]
            ++ fs ++ [EvRun (LSnapSave 0) g2]), segs.
    split; [|split; [exists fs0, g1, fs, g2; auto|exact F4]].
    rewrite L4, L3, L2, L1, L0, L0'. rewrite <- !app_assoc. reflexivity.
  - (* from scratch, no snapshot manager *)
    apply bind_Ok in H as (u0 & w0 & Hinitg & H).
    destruct (client_run_log _ _ _ _ _ Hinitg) as (g0 & Hg0 & L0'). inversion Hg0; subst g0.
    apply bind_Ok in H as (u1 & w1 & H1 & H). inversion H1; subst w1.
    destruct (loop_and_exit_log _ _ _ _ _ _ H) as (Hle & segs & L4 & F4).
    split; [exact Hle|]. exists [EvRun LInitGroup (init_group (job self))], segs.
    split; [|auto]. rewrite L4, L0'. now rewrite <- !app_assoc.
Qed.

(** The labels of the loop's [client.run] calls for the epochs [es]. *)
Definition loop_labels (self : JobRunner) (es : list nat) : list Label :=
  concat (map (fun e => LEpochGroup e :: match snapshot self with
                                          | Some _ => [LSnapSave e]
                                          | None => []
                                          end) es).

Lemma iteration_labels self e seg :
  iteration_log self e seg ->
  run_labels seg = LEpochGroup e :: match snapshot self with
                                    | Some _ => [LSnapSave e]
                                    | None => []
                                    end.
Proof.
  unfold iteration_log. destruct (snapshot self).
  - intros (fs & g & Ff & ->). simpl.
    rewrite !run_labels_app, run_labels_fetches, (Forall_is_fetch_labels _ Ff). reflexivity.
  - intros ->. simpl. now rewrite run_labels_fetches.
Qed.

Lemma loop_log_labels self es segs :
  Forall2 (iteration_log self) es segs ->
  run_labels (concat segs) = loop_labels self es.
Proof.
  induction 1 as [|e seg es segs Hseg _ IH]; [reflexivity|].
  simpl. rewrite run_labels_app, IH, (iteration_labels _ _ _ Hseg). reflexivity.
Qed.

Lemma loop_labels_bound self k n l :
  l ∈ loop_labels self (seq k n) ->
  exists j, (k <= j)%nat /\ (l = LEpochGroup j \/ l = LSnapSave j).
Proof.
  unfold loop_labels. intros Hin.
  apply list_elem_of_In, in_concat in Hin as (ls & Hls & Hl).
  apply in_map_iff in Hls as (j & <- & Hj). apply in_seq in Hj.
  exists j. split; [lia|].
  destruct (snapshot self); simpl in Hl; intuition.
Qed.

Lemma prologue_labels self pre :
  prologue_log self pre ->
  run_labels pre =
    match snapshot self, resume_from_epoch self with
    | None, None => [LInitGroup]
    | None, Some _ => []
    | Some _, None => [LInitGroup; LSnapInit; LSnapSave 0]
    | Some _, Some e => [LSnapInit; LSnapLoad e]
    end.
Proof.
  unfold prologue_log.
  destruct (snapshot self), (resume_from_epoch self).
  - intros (fs0 & g1 & fs & g2 & F0 & F & ->).
    rewrite !run_labels_app, (Forall_is_fetch_labels _ F0), (Forall_is_fetch_labels _ F).
    reflexivity.
  - intros (fs0 & g1 & fs & g2 & F0 & F & ->).
    rewrite !run_labels_app, (Forall_is_fetch_labels _ F0), (Forall_is_fetch_labels _ F).
    reflexivity.
  - now intros ->.
  - now intros ->.
Qed.

(** Every label of a completed run, in order. *)
Lemma JobRunner_call_labels fuel self w e w' :
  JobRunner_call fuel self w = Ok e w' ->
  (first_epoch self <= e)%nat /\
  exists new, w_log w' = w_log w ++ new /\
    run_labels new =
      match snapshot self, resume_from_epoch self with
      | None, None => [LInitGroup]
      | None, Some _ => []
      | Some _, None => [LInitGroup; LSnapInit; LSnapSave 0]
      | Some _, Some e => [LSnapInit; LSnapLoad e]
      end
      ++ loop_labels self (seq (first_epoch self) (S (e - first_epoch self)))
      ++ [LExitGroup].
Proof.
  intros H. destruct (JobRunner_call_log _ _ _ _ _ H) as (Hle & pre & segs & L & Hpre & Hsegs).
  split; [exact Hle|]. eexists. split; [exact L|].
  rewrite !run_labels_app, (prologue_labels _ _ Hpre), (loop_log_labels _ _ _ Hsegs).
  reflexivity.
Qed.

(** ** C2: resuming skips init_group and loads the checkpoint *)

(** C2: with a snapshot manager, a completed run that resumes from epoch
    [E] never runs [init_group], initialises the manager, runs
    [snapshot.load(E)] and no [snapshot.save(0)], and its first epoch is
    [E + 1]; a run from scratch runs [init_group], initialises the
    manager, runs [snapshot.save(0)] and no load, and its first epoch is
    1.  The [client.run] calls are read from the run's log. *)
Theorem JobRunner_resume_skips_init (fuel : nat) (self : JobRunner) (s : SnapRef)
    (w : World) (e : nat) (w' : World)
    (Hs : snapshot self = Some s)
    (Hrun : JobRunner_call fuel self w = Ok e w') :
  exists new, w_log w' = w_log w ++ new /\
    match resume_from_epoch self with
    | Some E =>
        (exists rest, run_labels new = LSnapInit :: LSnapLoad E :: LEpochGroup (S E) :: rest) /\
        (LInitGroup ∉ run_labels new) /\ (LSnapSave 0 ∉ run_labels new)
    | None =>
        (exists rest, run_labels new = LInitGroup :: LSnapInit :: LSnapSave 0 :: LEpochGroup 1 :: rest) /\
        (forall E, LSnapLoad E ∉ run_labels new)
    end.
Proof.
  destruct (JobRunner_call_labels _ _ _ _ _ Hrun) as (Hle & new & L & Hlab).
  exists new. split; [exact L|].
  rewrite Hs in Hlab. unfold first_epoch in *.
  destruct (resume_from_epoch self) as [E|]; rewrite Hlab.
  - split; [|split].
    + eexists. unfold loop_labels. simpl. rewrite Hs. reflexivity.
    + intros Hin. apply elem_of_app in Hin as [Hin|Hin]; [set_solver|].
      apply elem_of_app in Hin as [Hin|Hin]; [|set_solver].
      apply loop_labels_bound in Hin as (j & _ & [?|?]); discriminate.
    + intros Hin. apply elem_of_app in Hin as [Hin|Hin]; [set_solver|].
      apply elem_of_app in Hin as [Hin|Hin]; [|set_solver].
      apply loop_labels_bound in Hin as (j & Hj & [?|Heq]); [discriminate|].
      injection Heq. lia.
  - split.
    + eexists. unfold loop_labels. simpl. rewrite Hs. reflexivity.
    + intros E Hin. apply elem_of_app in Hin as [Hin|Hin]; [set_solver|].
      apply elem_of_app in Hin as [Hin|Hin]; [|set_solver].
      apply loop_labels_bound in Hin as (j & _ & [?|?]); discriminate.
Qed.

(** ** C3: order of the steps of an epoch *)

(** C3: with a snapshot manager, the log of a completed run is the
    prologue, then for each epoch [k] before the last one: [epoch_group]
    run, every stop signal fetched in order, the fetches that build the
    save task, [snapshot.save(k)] run; then the same steps for the last
    epoch [e], ending with [snapshot.save(e)], and right after it
    [exit_group] run.  The stop test comes after the save, so the last
    epoch's checkpoint is taken before [exit_group] runs. *)
Theorem JobRunner_epoch_step_order (fuel : nat) (self : JobRunner) (s : SnapRef)
    (w : World) (e : nat) (w' : World)
    (Hs : snapshot self = Some s)
    (Hrun : JobRunner_call fuel self w = Ok e w') :
  exists pre segs fs g,
    Forall2 (fun k seg => exists fs' g',
               Forall is_fetch fs' /\
               seg = EvRun (LEpochGroup k) (epoch_group (job self))
                     :: map EvFetch (stop_signals (job self)) ++ fs'
                     ++ [EvRun (LSnapSave k) g'])
            (seq (first_epoch self) (e - first_epoch self)) segs /\
    Forall is_fetch fs /\
    w_log w' = w_log w ++ pre ++ concat segs
               ++ [EvRun (LEpochGroup e) (epoch_group (job self))]
               ++ map EvFetch (stop_signals (job self)) ++ fs
               ++ [EvRun (LSnapSave e) g; EvRun LExitGroup (exit_group (job self))].
Proof.
  destruct (JobRunner_call_log _ _ _ _ _ Hrun) as (Hle & pre & segs & L & _ & Hsegs).
  rewrite seq_S in Hsegs.
  apply Forall2_app_inv_l in Hsegs as (segs1 & segs2 & F1 & F2 & ->).
  inversion F2 as [|k seg ks segs3 Hseg F3 Hk Hsegs2]; subst.
  inversion F3; subst.
  unfold iteration_log in Hseg. rewrite Hs in Hseg.
  destruct Hseg as (fs & g & Ff & ->).
  assert (Heq : (first_epoch self + (e - first_epoch self))%nat = e) by lia.
  rewrite Heq in L.
  exists pre, segs1, fs, g. split; [|split; [exact Ff|]].
  - eapply Forall2_impl; [exact F1|]. intros k seg Hseg.
    unfold iteration_log in Hseg. rewrite Hs in Hseg. exact Hseg.
  - rewrite L, concat_app. simpl. rewrite app_nil_r, <- !app_assoc. simpl.
    rewrite <- !app_assoc. reflexivity.
Qed.

(** ** C9: the loop always runs an epoch *)

(** C9: a completed run executes [epoch_group] at least once, at its first
    epoch, and returns an epoch of at least 1 from scratch and at least
    [resume_from_epoch + 1] when resumed. *)
Theorem JobRunner_runs_at_least_one_epoch (fuel : nat) (self : JobRunner)
    (w : World) (e : nat) (w' : World)
    (Hrun : JobRunner_call fuel self w = Ok e w') :
  match resume_from_epoch self with
  | None => (1 <= e)%nat
  | Some E => (S E <= e)%nat
  end /\
  exists new, w_log w' = w_log w ++ new /\
    EvRun (LEpochGroup (first_epoch self)) (epoch_group (job self)) ∈ new.
Proof.
  destruct (JobRunner_call_log _ _ _ _ _ Hrun) as (Hle & pre & segs & L & _ & Hsegs).
  split; [unfold first_epoch in Hle; destruct (resume_from_epoch self); exact Hle|].
  eexists. split; [exact L|].
  simpl in Hsegs. inversion Hsegs as [|k seg ks segs' Hseg _]; subst.
  apply elem_of_app. right. simpl. apply elem_of_app. left.
  unfold iteration_log in Hseg.
  destruct (snapshot self).
  - destruct Hseg as (fs & g & _ & ->). left.
  - rewrite Hseg. left.
Qed.

(** ** C1: epoch_limiter *)

Definition limiter_counter : BlobReference := "epoch_counter_init_auto_0".
Definition limiter_flag : BlobReference := "epoch_countdown_auto_0".

Lemma epoch_limiter_Job_new (n : Z) (w : World) :
  epoch_limiter Job_new n w =
  Ok (mkJob
        (mkTaskGroup GLOBAL
           [mkTask None (Some (mkNet "epoch_counter_init"
                                 [CreateCounter limiter_counter (n - 1)])) []])
        (mkTaskGroup PRIVATE
           [mkTask None (Some (mkNet "epoch_countdown"
                                 [CountDown limiter_counter limiter_flag]))
              [mkTaskOutput (w_next w) limiter_flag]])
        (TaskGroup_new PRIVATE)
        [mkTaskOutput (w_next w) limiter_flag])
     (set_next (S (w_next w)) w).
Proof. reflexivity. Qed.

Lemma epoch_loop_S fuel self epoch :
  epoch_loop (S fuel) self epoch =
    (client_run (LEpochGroup epoch) (RGroup (epoch_group (job self)));;
     stop_signals ← mapM fetch (stop_signals (job self));
     match snapshot self with
     | Some s => t ← snap_save s epoch; client_run (LSnapSave epoch) t
     | None => mret tt
     end;;
     stop ← py_any stop_signals;
     if (stop : bool) then mret epoch else epoch_loop fuel self (S epoch)).
Proof. reflexivity. Qed.

Lemma run_countdown_task nd nm cnt fin r w (c : Z) :
  w_ws w !! cnt = Some (VCounter c) ->
  run_task (mkTask nd (Some (mkNet nm [CountDown cnt fin])) [mkTaskOutput r fin]) w =
  Ok tt (set_outputs (<[r := VBool (c <=? 0)%Z]> (w_outputs w))
          (set_ws (<[fin := VBool (c <=? 0)%Z]> (<[cnt := VCounter (c - 1)]> (w_ws w))) w)).
Proof.
  intros Hc.
  unfold run_task, run_op, forM_, modify, get, mbind, M_bind, mret, M_ret. simpl.
  rewrite Hc. simpl. rewrite lookup_insert_eq. reflexivity.
Qed.

(** One epoch of a job whose epoch group is a single countdown task and
    whose sole stop signal is that task's output. *)
Lemma countdown_iteration (self : JobRunner) nd nm wt cnt fin r fuel epoch w (c : Z) :
  epoch_group (job self) =
    mkTaskGroup wt [mkTask nd (Some (mkNet nm [CountDown cnt fin])) [mkTaskOutput r fin]] ->
  stop_signals (job self) = [mkTaskOutput r fin] ->
  snapshot self = None -> cnt <> fin ->
  w_ws w !! cnt = Some (VCounter c) ->
  exists w1,
    w_ws w1 !! cnt = Some (VCounter (c - 1)) /\
    run_labels (w_log w1) = run_labels (w_log w) ++ [LEpochGroup epoch] /\
    epoch_loop (S fuel) self epoch w =
      (if (c <=? 0)%Z then mret epoch else epoch_loop fuel self (S epoch)) w1.
Proof.
  intros Hg Hst Hsn Hne Hc.
  set (t := mkTask nd (Some (mkNet nm [CountDown cnt fin])) [mkTaskOutput r fin]).
  set (w0 := set_log (w_log w ++ [EvRun (LEpochGroup epoch) (mkTaskGroup wt [t])]) w).
  assert (Hc0 : w_ws w0 !! cnt = Some (VCounter c)) by exact Hc.
  set (w1 := set_outputs (<[r := VBool (c <=? 0)%Z]> (w_outputs w0))
          (set_ws (<[fin := VBool (c <=? 0)%Z]> (<[cnt := VCounter (c - 1)]> (w_ws w0))) w0)).
  assert (Hrun : client_run (LEpochGroup epoch) (RGroup (epoch_group (job self))) w = Ok tt w1).
  { rewrite Hg. unfold client_run, as_group. cbn beta iota.
    rewrite (bind_of_Ok _ _ w tt w0) by reflexivity. cbn beta. simpl forM_.
    rewrite (bind_of_Ok _ _ w0 tt w1) by (apply run_countdown_task, Hc0).
    reflexivity. }
  set (w2 := set_log (w_log w1 ++ [EvFetch (mkTaskOutput r fin)]) w1).
  assert (Hf : mapM fetch (stop_signals (job self)) w1 = Ok [VBool (c <=? 0)%Z] w2).
  { rewrite Hst. unfold mapM, fetch, log, modify, get, mbind, M_bind, mret, M_ret.
    simpl. rewrite lookup_insert_eq. reflexivity. }
  exists w2. split; [|split].
  - simpl. rewrite lookup_insert_ne by congruence. apply lookup_insert_eq.
  - simpl. rewrite !run_labels_app. simpl. now rewrite app_nil_r.
  - rewrite epoch_loop_S, (bind_of_Ok _ _ _ _ _ Hrun), (bind_of_Ok _ _ _ _ _ Hf), Hsn.
    destruct (c <=? 0)%Z; reflexivity.
Qed.

Lemma countdown_loop (self : JobRunner) nd nm wt cnt fin r :
  epoch_group (job self) =
    mkTaskGroup wt [mkTask nd (Some (mkNet nm [CountDown cnt fin])) [mkTaskOutput r fin]] ->
  stop_signals (job self) = [mkTaskOutput r fin] ->
  snapshot self = None -> cnt <> fin ->
  forall k fuel epoch w, (k < fuel)%nat ->
    w_ws w !! cnt = Some (VCounter (Z.of_nat k)) ->
    exists w', epoch_loop fuel self epoch w = Ok (epoch + k)%nat w' /\
      run_labels (w_log w') = run_labels (w_log w) ++ map LEpochGroup (seq epoch (S k)).
Proof.
  intros Hg Hst Hsn Hne k. induction k as [|k IH]; intros fuel epoch w Hk Hc.
  - destruct fuel as [|fuel]; [lia|].
    destruct (countdown_iteration self nd nm wt cnt fin r fuel epoch w _ Hg Hst Hsn Hne Hc)
      as (w1 & _ & L1 & E1).
    exists w1. rewrite E1. simpl. rewrite Nat.add_0_r. split; [reflexivity|exact L1].
  - destruct fuel as [|fuel]; [lia|].
    destruct (countdown_iteration self nd nm wt cnt fin r fuel epoch w _ Hg Hst Hsn Hne Hc)
      as (w1 & C1 & L1 & E1).
    rewrite E1.
    replace (Z.of_nat (S k) <=? 0)%Z with false by (symmetry; apply Z.leb_gt; lia).
    replace (Z.of_nat (S k) - 1)%Z with (Z.of_nat k) in C1 by lia.
    destruct (IH fuel (S epoch) w1 ltac:(lia) C1) as (w' & E' & L').
    exists w'. rewrite E'. split; [f_equal; lia|].
    rewrite L', L1, <- app_assoc. reflexivity.
Qed.

Lemma run_labels_single l g : run_labels [EvRun l g] = [l].
Proof. reflexivity. Qed.

Lemma JobRunner_call_scratch_no_snapshot fuel j :
  JobRunner_call fuel (mkJobRunner j None None) =
    (client_run LInitGroup (RGroup (init_group j));; mret tt;;
     (epoch ← epoch_loop fuel (mkJobRunner j None None) 1;
      client_run LExitGroup (RGroup (exit_group j));; mret epoch)).
Proof. reflexivity. Qed.

(** C1: for [N >= 1], a Job built by [with Job() as job: epoch_limiter(N)]
    (its sole stop signal), run from scratch by a JobRunner with no
    snapshot manager, runs [init_group], then [epoch_group] for epochs
    1, ..., N, then [exit_group], and returns N.  [fuel] only bounds the
    model's loop and is large enough from [N] on. *)
Theorem epoch_limiter_stops_after_N_epochs (N : nat) (HN : (1 <= N)%nat)
    (w : World) (fuel : nat) (Hfuel : (N <= fuel)%nat) :
  exists job0 w0 w1,
    epoch_limiter Job_new (Z.of_nat N) w = Ok job0 w0 /\
    JobRunner_call fuel (mkJobRunner job0 None None) w0 = Ok N w1 /\
    run_labels (w_log w1) =
      run_labels (w_log w0) ++ [LInitGroup] ++ map LEpochGroup (seq 1 N) ++ [LExitGroup].
Proof.
  rewrite epoch_limiter_Job_new.
  set (job0 := mkJob _ _ _ _).
  set (w0 := set_next (S (w_next w)) w).
  set (R := mkJobRunner job0 None None).
  set (wi := set_ws (<[limiter_counter := VCounter (Z.of_nat N - 1)]> (w_ws w0))
               (set_log (w_log w0 ++ [EvRun LInitGroup (init_group job0)]) w0)).
  assert (Hinit : client_run LInitGroup (RGroup (init_group (job R))) w0 = Ok tt wi)
    by reflexivity.
  assert (Hc : w_ws wi !! limiter_counter = Some (VCounter (Z.of_nat (N - 1)))).
  { simpl. rewrite lookup_insert_eq. do 2 f_equal. lia. }
  destruct (countdown_loop R None "epoch_countdown" PRIVATE limiter_counter limiter_flag
              (w_next w) eq_refl eq_refl eq_refl ltac:(discriminate)
              (N - 1) fuel 1 wi ltac:(lia) Hc) as (w' & Eloop & Lloop).
  set (w1 := set_log (w_log w' ++ [EvRun LExitGroup (exit_group job0)]) w').
  assert (Hexit : client_run LExitGroup (RGroup (exit_group (job R))) w' = Ok tt w1)
    by reflexivity.
  exists job0, w0, w1. split; [reflexivity|]. split.
  - unfold R in *. rewrite JobRunner_call_scratch_no_snapshot.
    rewrite (bind_of_Ok _ _ _ _ _ Hinit). cbn beta.
    rewrite (bind_of_Ok (mret tt) _ wi tt wi) by reflexivity. cbn beta.
    rewrite (bind_of_Ok _ _ _ _ _ Eloop). cbn beta.
    rewrite (bind_of_Ok _ _ _ _ _ Hexit).
    replace (1 + (N - 1))%nat with N by lia. reflexivity.
  - assert (E1 : w_log w1 = w_log w' ++ [EvRun LExitGroup (exit_group job0)])
      by reflexivity.
    assert (Ei : w_log wi = w_log w0 ++ [EvRun LInitGroup (init_group job0)])
      by reflexivity.
    rewrite E1, run_labels_app, Lloop, Ei, run_labels_app, !run_labels_single.
    replace (S (N - 1)) with N by lia. rewrite <- !app_assoc. reflexivity.
Qed.

(** ** C4: the task built by SnapshotManager.init *)

Lemma get_sm_found self w s :
  w_sms w !! self = Some s -> get_sm self w = Ok s w.
Proof. intros Hs. unfold get_sm, get, mbind, M_bind. now rewrite Hs. Qed.

(** C4: [SnapshotManager.init] (for no node list or a single node) builds
    one task with one output, the manager's ["blob_names"] blob, whose
    net is a single [GetAllBlobNames(include_shared=False)] operator when
    [retrieve_from_epoch] is [None], and otherwise a single [Load] of that
    one blob (and nothing else) from the checkpoint of that epoch; that
    output becomes the manager's names output. *)
Theorem SnapshotManager_init_builds_names_task (node : option Node) (self : nat)
    (nodes : option (list Node)) (retrieve_from_epoch : option nat)
    (w : World) (s : SnapshotManager)
    (Hs : w_sms w !! self = Some s)
    (Hnodes : match nodes with None => True | Some l => length l = 1%nat end) :
  exists task w' o,
    SnapshotManager_init node self nodes retrieve_from_epoch w = Ok task w' /\
    task_outputs task = [o] /\ to_name o = sm_blob_names s /\
    (retrieve_from_epoch = None ->
       task_step task = Some (mkNet "get_blob_list"
                                [GetAllBlobNames (sm_blob_names s) false])) /\
    (forall e, retrieve_from_epoch = Some e ->
       task_step task = Some (mkNet "get_blob_list"
                                [Load [sm_blob_names s] (_dbname s e) (sm_db_type s) true])) /\
    w_sms w' !! self = Some (set_names_output (Some o) s).
Proof.
  assert (Ha : assert (match nodes with None => true | Some l => (length l =? 1)%nat end) w
               = Ok tt w).
  { destruct nodes as [l|]; [|reflexivity].
    rewrite Hnodes. reflexivity. }
  unfold SnapshotManager_init.
  rewrite (bind_of_Ok _ _ _ _ _ Ha). cbn beta.
  rewrite (bind_of_Ok _ _ _ _ _ (get_sm_found _ _ _ Hs)). cbn beta zeta.
  set (o := mkTaskOutput (w_next w) (sm_blob_names s)).
  eexists _, _, o. split; [reflexivity|].
  split; [reflexivity|]. split; [reflexivity|].
  split; [|split].
  - now intros ->.
  - now intros e ->.
  - simpl. apply lookup_insert_eq.
Qed.

(** ** C6 and C10: blob_list before the names output is resolved *)

Lemma blob_list_unresolved self w s :
  w_sms w !! self = Some s ->
  match sm_names_output s with
  | None => True
  | Some o => w_outputs w !! to_ref o = None
  end ->
  exists w', blob_list self w = Err AssertionError w'.
Proof.
  intros Hs Ho. unfold blob_list.
  rewrite (bind_of_Ok _ _ _ _ _ (get_sm_found _ _ _ Hs)). cbn beta.
  destruct (sm_names_output s) as [o|].
  - unfold fetch, log, modify, get, mbind, M_bind. simpl. rewrite Ho.
    eexists. reflexivity.
  - eexists. reflexivity.
Qed.

(** C6: [blob_list()] on a manager whose names output is unresolved (its
    init task has not run) or absent ([init] never called) raises
    AssertionError; it returns no list at all. *)
Theorem blob_list_requires_resolved_names (self : nat) (w : World) (s : SnapshotManager)
    (Hs : w_sms w !! self = Some s)
    (Hunresolved : match sm_names_output s with
                   | None => True
                   | Some o => w_outputs w !! to_ref o = None
                   end) :
  (exists w', blob_list self w = Err AssertionError w') /\
  (forall names w', blob_list self w <> Ok names w').
Proof.
  destruct (blob_list_unresolved _ _ _ Hs Hunresolved) as (w' & E).
  split; [now exists w'|]. intros names w'' H. congruence.
Qed.

(** C10: [load(epoch)] and [save(epoch)] call [blob_list()] while building
    their task, so under the same condition both raise the same
    AssertionError and build no task. *)
Theorem load_save_require_resolved_names (node : option Node) (self epoch : nat)
    (w : World) (s : SnapshotManager)
    (Hs : w_sms w !! self = Some s)
    (Hunresolved : match sm_names_output s with
                   | None => True
                   | Some o => w_outputs w !! to_ref o = None
                   end) :
  (exists w', SnapshotManager_load node self epoch w = Err AssertionError w') /\
  (exists w', SnapshotManager_save node self epoch w = Err AssertionError w').
Proof.
  destruct (blob_list_unresolved _ _ _ Hs Hunresolved) as (w' & E).
  split; exists w'; unfold SnapshotManager_load, SnapshotManager_save;
    exact (bind_of_Err _ _ _ _ _ E).
Qed.

(** ** C8: Job.add_stop_signal *)

(** C8: a blob reference is wrapped in a new single-output task appended
    to [epoch_group], and that task's output is appended to the stop
    signals; a TaskOutput is appended as it is; anything else raises
    AssertionError. *)
Theorem add_stop_signal_cases (self : Job) (w : World) :
  (forall b : BlobReference, exists o w',
     add_stop_signal self (PyBlobReference b) w =
       Ok (mkJob (init_group self) (add_task (mkTask None None [o]) (epoch_group self))
                 (exit_group self) (stop_signals self ++ [o])) w' /\
     to_name o = b) /\
  (forall o : TaskOutput,
     add_stop_signal self (PyTaskOutput o) w =
       Ok (mkJob (init_group self) (epoch_group self) (exit_group self)
                 (stop_signals self ++ [o])) w) /\
  add_stop_signal self PyOther w = Err AssertionError w.
Proof.
  split; [|split].
  - intros b. eexists _, _. split; reflexivity.
  - intros o. reflexivity.
  - reflexivity.
Qed.

(** ** C5: checkpoint keys *)

Lemma digit_char_value d : (d < 10)%nat -> nat_of_ascii (digit_char d) = (48 + d)%nat.
Proof. intros Hd. unfold digit_char. apply nat_ascii_embedding. lia. Qed.

Lemma digit_char_mod_value n : nat_of_ascii (digit_char (n mod 10)) = (48 + n mod 10)%nat.
Proof. apply digit_char_value. apply Nat.mod_upper_bound. lia. Qed.

Lemma decimal_aux_value fuel : forall n acc, (n < fuel)%nat ->
  value_aux 0 (decimal_aux fuel n acc) = value_aux n acc.
Proof.
  induction fuel as [|f IH]; intros n acc Hn; [lia|].
  cbn [decimal_aux]. pose proof (Nat.div_mod_eq n 10) as Hdm.
  destruct (Nat.ltb_spec n 10) as [Hlt|Hge].
  - cbn [value_aux]. rewrite digit_char_mod_value. f_equal.
    rewrite Nat.mod_small by lia. lia.
  - rewrite IH by (pose proof (Nat.div_lt n 10); lia).
    cbn [value_aux]. rewrite digit_char_mod_value. f_equal. lia.
Qed.

Lemma decimal_aux_digits fuel : forall n acc, all_digits acc = true ->
  all_digits (decimal_aux fuel n acc) = true.
Proof.
  assert (Hc : forall n acc, all_digits acc = true ->
            all_digits (String (digit_char (n mod 10)) acc) = true).
  { intros n acc Ha. cbn [all_digits]. rewrite Ha, andb_true_r. unfold is_digit.
    rewrite digit_char_mod_value. pose proof (Nat.mod_upper_bound n 10).
    apply andb_true_intro; split; apply Nat.leb_le; lia. }
  induction fuel as [|f IH]; intros n acc Ha; [exact Ha|].
  cbn [decimal_aux]. destruct (n <? 10)%nat; auto.
Qed.

Lemma decimal_aux_leading fuel : forall n acc, (n < fuel)%nat -> n <> 0%nat ->
  exists c r, decimal_aux fuel n acc = String c r /\ c <> "0"%char.
Proof.
  induction fuel as [|f IH]; intros n acc Hn Hz; [lia|].
  cbn [decimal_aux]. destruct (Nat.ltb_spec n 10) as [Hlt|Hge].
  - eexists _, _. split; [reflexivity|]. intros Hc.
    apply (f_equal nat_of_ascii) in Hc. rewrite digit_char_mod_value in Hc.
    rewrite Nat.mod_small in Hc by lia.
    change (nat_of_ascii "0"%char) with 48%nat in Hc. lia.
  - apply IH.
    + pose proof (Nat.div_lt n 10). lia.
    + pose proof (Nat.div_str_pos n 10). lia.
Qed.

Lemma zeros_length k : String.length (zeros k) = k.
Proof. induction k; simpl; congruence. Qed.

Lemma string_append_length a b :
  String.length (String.append a b) = (String.length a + String.length b)%nat.
Proof. induction a as [|c a IH]; [reflexivity|]. simpl. rewrite IH. reflexivity. Qed.

Lemma blob_list_resolved self w s o names :
  w_sms w !! self = Some s -> sm_names_output s = Some o ->
  w_outputs w !! to_ref o = Some (VNames names) ->
  blob_list self w = Ok names (set_log (w_log w ++ [EvFetch o]) w).
Proof.
  intros Hs Ho Hv. unfold blob_list.
  rewrite (bind_of_Ok _ _ _ _ _ (get_sm_found _ _ _ Hs)). cbn beta.
  rewrite Ho. unfold fetch, log, modify, get, mbind, M_bind. simpl.
  rewrite Hv. reflexivity.
Qed.

(** C5: the key [save(epoch)] and [load(epoch)] address is the manager's
    prefix, a dot, then the decimal numeral of the epoch (digits only,
    reading back as the epoch, no leading zero unless it is 0) left-padded
    with zeros to six characters (longer numerals are kept whole); so
    [save(3)] with prefix ["run"] addresses ["run.000003"]. *)
Theorem checkpoint_key_format (node : option Node) (self epoch : nat) (w : World)
    (s : SnapshotManager) (o : TaskOutput) (names : list string)
    (Hs : w_sms w !! self = Some s) (Ho : sm_names_output s = Some o)
    (Hv : w_outputs w !! to_ref o = Some (VNames names)) :
  _dbname s epoch =
    String.append (sm_db s)
      (String.append "." (String.append (zeros (6 - String.length (decimal epoch)))
                                         (decimal epoch))) /\
  all_digits (decimal epoch) = true /\
  decimal_value (decimal epoch) = epoch /\
  (epoch = 0%nat -> decimal epoch = "0") /\
  (epoch <> 0%nat -> exists c r, decimal epoch = String c r /\ c <> "0"%char) /\
  String.length (pct_06d epoch) = Nat.max 6 (String.length (decimal epoch)) /\
  (exists t w', SnapshotManager_save node self epoch w = Ok t w' /\
     task_step t = Some (mkNet "snapshot_save"
                           [Save names (_dbname s epoch) (sm_db_type s) true])) /\
  (exists t w', SnapshotManager_load node self epoch w = Ok t w' /\
     task_step t = Some (mkNet "get_blob_list"
                           [Load names (_dbname s epoch) (sm_db_type s) true])) /\
  (forall db_type, _dbname (SnapshotManager_new "run" db_type) 3 = "run.000003").
Proof.
  assert (Hsave_load :
    (exists t w', SnapshotManager_save node self epoch w = Ok t w' /\
       task_step t = Some (mkNet "snapshot_save"
                             [Save names (_dbname s epoch) (sm_db_type s) true])) /\
    (exists t w', SnapshotManager_load node self epoch w = Ok t w' /\
       task_step t = Some (mkNet "get_blob_list"
                             [Load names (_dbname s epoch) (sm_db_type s) true]))).
  { pose proof (blob_list_resolved _ _ _ _ _ Hs Ho Hv) as Hb.
    assert (Hs' : w_sms (set_log (w_log w ++ [EvFetch o]) w) !! self = Some s) by exact Hs.
    split; eexists _, _;
      unfold SnapshotManager_save, SnapshotManager_load;
      rewrite (bind_of_Ok _ _ _ _ _ Hb); cbn beta;
      rewrite (bind_of_Ok _ _ _ _ _ (get_sm_found _ _ _ Hs')); cbn beta zeta;
      split; reflexivity. }
  split; [reflexivity|].
  split; [apply decimal_aux_digits; reflexivity|].
  split; [unfold decimal_value, decimal; rewrite decimal_aux_value; [reflexivity|lia]|].
  split; [intros ->; reflexivity|].
  split; [intros Hz; apply decimal_aux_leading; lia|].
  split; [unfold pct_06d; rewrite string_append_length, zeros_length; lia|].
  split; [exact (proj1 Hsave_load)|].
  split; [exact (proj2 Hsave_load)|].
  intros t. reflexivity.
Qed.

(** ** C7: MultiNodeSnapshotManager.init called twice *)

(** Computations that leave the MultiNodeSnapshotManager objects alone,
    whether they return or raise. *)
Definition keeps_mns {A} (m : M A) : Prop :=
  forall w, w_mns (result_world (m w)) = w_mns w.

Lemma keeps_mns_ret {A} (a : A) : keeps_mns (mret a).
Proof. intros w. reflexivity. Qed.

Lemma keeps_mns_raise {A} (e : Exc) : keeps_mns (A:=A) (raise e).
Proof. intros w. reflexivity. Qed.

Lemma keeps_mns_get : keeps_mns get.
Proof. intros w. reflexivity. Qed.

Lemma keeps_mns_modify (f : World -> World) :
  (forall w, w_mns (f w) = w_mns w) -> keeps_mns (modify f).
Proof. intros Hf w. apply Hf. Qed.

Lemma keeps_mns_bind {A B} (m : M A) (k : A -> M B) :
  keeps_mns m -> (forall a, keeps_mns (k a)) -> keeps_mns (m ≫= k).
Proof.
  intros Hm Hk w. specialize (Hm w). unfold mbind, M_bind.
  destruct (m w) as [a w1|e w1]; simpl in *; [rewrite Hk|]; exact Hm.
Qed.

Lemma keeps_mns_mapM {A B} (f : A -> M B) (l : list A) :
  (forall x, keeps_mns (f x)) -> keeps_mns (mapM f l).
Proof.
  intros Hf. induction l as [|x l IH]; simpl.
  - apply keeps_mns_ret.
  - apply keeps_mns_bind; [apply Hf|intros y].
    apply keeps_mns_bind; [apply IH|intros ys]. apply keeps_mns_ret.
Qed.

Create HintDb keeps_mns.
#[export] Hint Resolve keeps_mns_ret keeps_mns_raise keeps_mns_get : keeps_mns.

Ltac keeps_mns_tac :=
  repeat match goal with
  | |- keeps_mns (mbind _ _) => apply keeps_mns_bind; [|intro]
  | |- keeps_mns (mapM _ _) => apply keeps_mns_mapM; intro
  | |- keeps_mns (modify _) => apply keeps_mns_modify; intro; reflexivity
  | |- keeps_mns (match ?x with _ => _ end) => destruct x
  | |- keeps_mns (let _ := _ in _) => cbv zeta
  | |- keeps_mns (assert _) => unfold assert
  | |- keeps_mns (fresh) => unfold fresh
  | |- keeps_mns (Task_new _ _ _) => unfold Task_new
  | |- keeps_mns (first_output _) => unfold first_output
  | |- keeps_mns (get_sm _) => unfold get_sm
  | |- keeps_mns (put_sm _ _) => unfold put_sm
  | |- keeps_mns (get_mn _) => unfold get_mn
  | |- keeps_mns _ => solve [eauto with keeps_mns]
  end.

Lemma keeps_mns_SnapshotManager_init node self nodes r :
  keeps_mns (SnapshotManager_init node self nodes r).
Proof. unfold SnapshotManager_init. keeps_mns_tac. Qed.

Lemma keeps_mns__task_group self func :
  (forall n mgr, keeps_mns (func n mgr)) -> keeps_mns (_task_group self func).
Proof. intros Hf. unfold _task_group. keeps_mns_tac. all: try apply Hf. Qed.

Lemma get_mn_found self w m :
  w_mns w !! self = Some m -> get_mn self w = Ok m w.
Proof. intros Hm. unfold get_mn, get, mbind, M_bind. now rewrite Hm. Qed.

(** One round of the recording loop of a first [init]: a new
    SnapshotManager is allocated and [(node, manager)] appended. *)
Lemma init_body_step self prefix db_type x acc w :
  w_mns w !! self = Some (mkMultiNode (Some acc) prefix db_type) ->
  exists r w1,
    (manager ← SnapshotManager_alloc (os_path_join prefix x) db_type;
     m' ← get_mn self;
     put_mn self (set_node_managers
                    (Some (default [] (mn_node_managers m') ++ [(x, manager)])) m')) w
      = Ok tt w1 /\
    w_mns w1 !! self = Some (mkMultiNode (Some (acc ++ [(x, r)])) prefix db_type).
Proof.
  intros Hw.
  set (w0 := set_sms (<[w_next w := SnapshotManager_new (os_path_join prefix x) db_type]>
                        (w_sms w)) (set_next (S (w_next w)) w)).
  assert (Ha : SnapshotManager_alloc (os_path_join prefix x) db_type w = Ok (w_next w) w0)
    by reflexivity.
  assert (Hw0 : w_mns w0 !! self = Some (mkMultiNode (Some acc) prefix db_type)) by exact Hw.
  eexists (w_next w), _. split.
  - rewrite (bind_of_Ok _ _ _ _ _ Ha). cbn beta.
    rewrite (bind_of_Ok _ _ _ _ _ (get_mn_found _ _ _ Hw0)). reflexivity.
  - apply lookup_insert_eq.
Qed.

Lemma init_loop self prefix db_type (f : Node -> M unit)
    (Hf : forall x acc w,
       w_mns w !! self = Some (mkMultiNode (Some acc) prefix db_type) ->
       exists r w1, f x w = Ok tt w1 /\
         w_mns w1 !! self = Some (mkMultiNode (Some (acc ++ [(x, r)])) prefix db_type)) :
  forall nodes acc w,
  w_mns w !! self = Some (mkMultiNode (Some acc) prefix db_type) ->
  exists nms w', forM_ nodes f w = Ok tt w' /\
    w_mns w' !! self = Some (mkMultiNode (Some (acc ++ nms)) prefix db_type) /\
    map fst nms = nodes.
Proof.
  induction nodes as [|x l IH]; intros acc w Hw.
  - exists [], w. rewrite app_nil_r. now split.
  - destruct (Hf x acc w Hw) as (r & w1 & Hx & Hw1).
    destruct (IH _ _ Hw1) as (nms & w' & Hl & Hm & Hn).
    exists ((x, r) :: nms), w'. split; [|split].
    + cbn [forM_]. rewrite (bind_of_Ok _ _ _ _ _ Hx). exact Hl.
    + rewrite <- app_assoc in Hm. exact Hm.
    + simpl. congruence.
Qed.

(** C7 (as the code has it): after a first [init] on a fresh manager,
    whatever its outcome, the manager records the given node list in its
    order; a second [init] returns [None] and changes nothing when given
    exactly that list, and otherwise raises AssertionError and changes
    nothing; so the recorded mapping is never changed by it.  The check
    compares ordered lists: the same nodes in another order, or with a
    repetition, fail. *)
Theorem MultiNode_init_second_call (self : nat) (prefix db_type : string) (w : World)
    (nodes1 nodes2 : list Node) (r1 r2 : option nat)
    (Hfresh : w_mns w !! self = Some (MultiNodeSnapshotManager_new prefix db_type)) :
  let w1 := result_world (MultiNodeSnapshotManager_init self nodes1 r1 w) in
  (exists nms, w_mns w1 !! self = Some (mkMultiNode (Some nms) prefix db_type) /\
               map fst nms = nodes1) /\
  MultiNodeSnapshotManager_init self nodes2 r2 w1 =
    (if bool_decide (nodes2 = nodes1) then Ok RNone w1 else Err AssertionError w1).
Proof.
  intros w1.
  assert (H1 : exists nms, w_mns w1 !! self = Some (mkMultiNode (Some nms) prefix db_type) /\
                           map fst nms = nodes1).
  { subst w1. unfold MultiNodeSnapshotManager_init.
    rewrite (bind_of_Ok _ _ _ _ _ (get_mn_found _ _ _ Hfresh)).
    cbn [MultiNodeSnapshotManager_new mn_node_managers mn_db_prefix mn_db_type].
    set (w0 := set_mns (<[self := mkMultiNode (Some []) prefix db_type]> (w_mns w)) w).
    assert (Hp : put_mn self (set_node_managers (Some [])
                   (MultiNodeSnapshotManager_new prefix db_type)) w = Ok tt w0)
      by reflexivity.
    rewrite (bind_of_Ok _ _ _ _ _ Hp).
    assert (Hw0 : w_mns w0 !! self = Some (mkMultiNode (Some []) prefix db_type))
      by apply lookup_insert_eq.
    match goal with
    | |- context [forM_ nodes1 ?f] =>
        destruct (init_loop self prefix db_type f
                    (fun x acc w' Hw' => init_body_step self prefix db_type x acc w' Hw')
                    nodes1 [] w0 Hw0) as (nms & w2 & Hl & Hm & Hn)
    end.
    rewrite (bind_of_Ok _ _ _ _ _ Hl). exists nms. split; [|exact Hn].
    destruct (last nodes1) as [n|]; [|exact Hm].
    match goal with
    | |- w_mns (result_world (?m w2)) !! _ = _ =>
        assert (K : keeps_mns m)
    end.
    { apply keeps_mns_bind; [|intros; apply keeps_mns_ret].
      apply keeps_mns__task_group. intros. apply keeps_mns_SnapshotManager_init. }
    rewrite (K w2). exact Hm. }
  split; [exact H1|].
  destruct H1 as (nms & Hm & Hn).
  unfold MultiNodeSnapshotManager_init.
  rewrite (bind_of_Ok _ _ _ _ _ (get_mn_found _ _ _ Hm)).
  cbn [mn_node_managers]. subst nodes1.
  destruct (decide (nodes2 = map fst nms)) as [->|Hne].
  - rewrite !bool_decide_true by reflexivity. reflexivity.
  - rewrite !bool_decide_false by congruence. reflexivity.
Qed.

(** C7, counterexample: on a fresh manager, [init(["a","b"])] succeeds,
    then [init(["b","a"])], with the same node set, raises
    AssertionError instead of being a no-op. *)
Lemma MultiNode_init_reordered_nodes_fail :
  (list_to_set ["a"; "b"] : gset string) = list_to_set ["b"; "a"] /\
  (exists g, MultiNodeSnapshotManager_init 0 ["a"; "b"] None demo_mn_world =
             Ok (RGroup g) (result_world (MultiNodeSnapshotManager_init 0 ["a"; "b"] None demo_mn_world))) /\
  MultiNodeSnapshotManager_init 0 ["b"; "a"] None
    (result_world (MultiNodeSnapshotManager_init 0 ["a"; "b"] None demo_mn_world)) =
  Err AssertionError (result_world (MultiNodeSnapshotManager_init 0 ["a"; "b"] None demo_mn_world)).
Proof.
  split; [set_solver|]. split.
  - eexists. vm_compute. reflexivity.
  - vm_compute. reflexivity.
Qed.

(** * Witnesses *)

Lemma epoch_limiter_stops_after_N_epochs_witness :
  (1 <= 2)%nat /\ (2 <= 3)%nat /\
  exists job0 w0 w1,
    epoch_limiter Job_new (Z.of_nat 2) empty_world = Ok job0 w0 /\
    JobRunner_call 3 (mkJobRunner job0 None None) w0 = Ok 2%nat w1 /\
    run_labels (w_log w1) =
      run_labels (w_log w0) ++ [LInitGroup] ++ map LEpochGroup (seq 1 2) ++ [LExitGroup].
Proof.
  split; [lia|]. split; [lia|].
  exact (epoch_limiter_stops_after_N_epochs 2 ltac:(lia) empty_world 3 ltac:(lia)).
Defined.

Lemma JobRunner_resume_skips_init_witness :
  snapshot demo_resume_runner = Some (SingleManager 100) /\
  JobRunner_call 10 demo_resume_runner (result_world demo_run) =
    Ok 2%nat (result_world demo_resume) /\
  exists new, w_log (result_world demo_resume) = w_log (result_world demo_run) ++ new /\
    (exists rest, run_labels new = LSnapInit :: LSnapLoad 1 :: LEpochGroup 2 :: rest) /\
    (LInitGroup ∉ run_labels new) /\ (LSnapSave 0 ∉ run_labels new).
Proof.
  assert (Hrun : JobRunner_call 10 demo_resume_runner (result_world demo_run) =
                 Ok 2%nat (result_world demo_resume)) by (vm_compute; reflexivity).
  split; [reflexivity|]. split; [exact Hrun|].
  exact (JobRunner_resume_skips_init 10 demo_resume_runner (SingleManager 100)
           (result_world demo_run) 2 (result_world demo_resume) eq_refl Hrun).
Defined.

Lemma JobRunner_epoch_step_order_witness :
  snapshot demo_runner = Some (SingleManager 100) /\
  JobRunner_call 10 demo_runner (result_world demo_build) = Ok 2%nat (result_world demo_run) /\
  exists pre segs fs g,
    Forall2 (fun k seg => exists fs' g',
               Forall is_fetch fs' /\
               seg = EvRun (LEpochGroup k) (epoch_group (job demo_runner))
                     :: map EvFetch (stop_signals (job demo_runner)) ++ fs'
                     ++ [EvRun (LSnapSave k) g'])
            (seq (first_epoch demo_runner) (2 - first_epoch demo_runner)) segs /\
    Forall is_fetch fs /\
    w_log (result_world demo_run) = w_log (result_world demo_build) ++ pre ++ concat segs
               ++ [EvRun (LEpochGroup 2) (epoch_group (job demo_runner))]
               ++ map EvFetch (stop_signals (job demo_runner)) ++ fs
               ++ [EvRun (LSnapSave 2) g; EvRun LExitGroup (exit_group (job demo_runner))].
Proof.
  assert (Hrun : JobRunner_call 10 demo_runner (result_world demo_build) =
                 Ok 2%nat (result_world demo_run)) by (vm_compute; reflexivity).
  split; [reflexivity|]. split; [exact Hrun|].
  exact (JobRunner_epoch_step_order 10 demo_runner (SingleManager 100)
           (result_world demo_build) 2 (result_world demo_run) eq_refl Hrun).
Defined.

Lemma JobRunner_runs_at_least_one_epoch_witness :
  JobRunner_call 10 demo_runner (result_world demo_build) = Ok 2%nat (result_world demo_run) /\
  (1 <= 2)%nat /\
  exists new, w_log (result_world demo_run) = w_log (result_world demo_build) ++ new /\
    EvRun (LEpochGroup 1) (epoch_group (job demo_runner)) ∈ new.
Proof.
  assert (Hrun : JobRunner_call 10 demo_runner (result_world demo_build) =
                 Ok 2%nat (result_world demo_run)) by (vm_compute; reflexivity).
  split; [exact Hrun|].
  exact (JobRunner_runs_at_least_one_epoch 10 demo_runner
           (result_world demo_build) 2 (result_world demo_run) Hrun).
Defined.

Lemma SnapshotManager_init_builds_names_task_witness :
  w_sms demo_world !! 100%nat = Some (SnapshotManager_new "run" "minidb") /\
  exists task w' o,
    SnapshotManager_init (Some "n") 100 (Some ["n"]) (Some 3%nat) demo_world = Ok task w' /\
    task_outputs task = [o] /\ to_name o = "blob_names" /\
    (Some 3%nat = None ->
       task_step task = Some (mkNet "get_blob_list" [GetAllBlobNames "blob_names" false])) /\
    (forall e, Some 3%nat = Some e ->
       task_step task = Some (mkNet "get_blob_list"
          [Load ["blob_names"] (_dbname (SnapshotManager_new "run" "minidb") e) "minidb" true])) /\
    w_sms w' !! 100%nat = Some (set_names_output (Some o) (SnapshotManager_new "run" "minidb")).
Proof.
  assert (Hs : w_sms demo_world !! 100%nat = Some (SnapshotManager_new "run" "minidb"))
    by (vm_compute; reflexivity).
  split; [exact Hs|].
  exact (SnapshotManager_init_builds_names_task (Some "n") 100 (Some ["n"]) (Some 3%nat)
           demo_world (SnapshotManager_new "run" "minidb") Hs eq_refl).
Defined.

Lemma checkpoint_key_format_witness :
  w_sms demo_named_world !! 100%nat =
    Some (set_names_output (Some (mkTaskOutput 7 "blob_names")) (SnapshotManager_new "run" "minidb")) /\
  w_outputs demo_named_world !! 7%nat = Some (VNames ["blob_names"; "w"]) /\
  _dbname (set_names_output (Some (mkTaskOutput 7 "blob_names")) (SnapshotManager_new "run" "minidb")) 3
    = "run.000003" /\
  exists t w', SnapshotManager_save None 100 3 demo_named_world = Ok t w' /\
     task_step t = Some (mkNet "snapshot_save"
        [Save ["blob_names"; "w"]
              (_dbname (set_names_output (Some (mkTaskOutput 7 "blob_names"))
                                         (SnapshotManager_new "run" "minidb")) 3) "minidb" true]).
Proof.
  assert (Hs : w_sms demo_named_world !! 100%nat =
    Some (set_names_output (Some (mkTaskOutput 7 "blob_names")) (SnapshotManager_new "run" "minidb")))
    by (vm_compute; reflexivity).
  assert (Hv : w_outputs demo_named_world !! 7%nat = Some (VNames ["blob_names"; "w"]))
    by (vm_compute; reflexivity).
  split; [exact Hs|]. split; [exact Hv|]. split; [reflexivity|].
  exact (proj1 (proj2 (proj2 (proj2 (proj2 (proj2 (proj2
    (checkpoint_key_format None 100 3 demo_named_world _ (mkTaskOutput 7 "blob_names")
       ["blob_names"; "w"] Hs eq_refl Hv)))))))).
Defined.

Lemma blob_list_requires_resolved_names_witness :
  w_sms (result_world (SnapshotManager_init None 100 None None demo_world)) !! 100%nat =
    Some (set_names_output (Some (mkTaskOutput 200 "blob_names")) (SnapshotManager_new "run" "minidb")) /\
  w_outputs (result_world (SnapshotManager_init None 100 None None demo_world)) !! 200%nat = None /\
  (exists w', blob_list 100 (result_world (SnapshotManager_init None 100 None None demo_world))
              = Err AssertionError w').
Proof.
  assert (Hs : w_sms (result_world (SnapshotManager_init None 100 None None demo_world)) !! 100%nat =
    Some (set_names_output (Some (mkTaskOutput 200 "blob_names")) (SnapshotManager_new "run" "minidb")))
    by (vm_compute; reflexivity).
  assert (Hu : w_outputs (result_world (SnapshotManager_init None 100 None None demo_world))
                 !! 200%nat = None) by (vm_compute; reflexivity).
  split; [exact Hs|]. split; [exact Hu|].
  exact (proj1 (blob_list_requires_resolved_names 100 _ _ Hs Hu)).
Defined.

Lemma load_save_require_resolved_names_witness :
  w_sms demo_world !! 100%nat = Some (SnapshotManager_new "run" "minidb") /\
  (exists w', SnapshotManager_load None 100 1 demo_world = Err AssertionError w') /\
  (exists w', SnapshotManager_save None 100 1 demo_world = Err AssertionError w').
Proof.
  assert (Hs : w_sms demo_world !! 100%nat = Some (SnapshotManager_new "run" "minidb"))
    by (vm_compute; reflexivity).
  split; [exact Hs|].
  exact (load_save_require_resolved_names None 100 1 demo_world _ Hs I).
Defined.

Lemma MultiNode_init_second_call_witness :
  w_mns demo_mn_world !! 0%nat = Some (MultiNodeSnapshotManager_new "ckpt" "minidb") /\
  (exists nms, w_mns (result_world (MultiNodeSnapshotManager_init 0 ["a"; "b"] None demo_mn_world))
                 !! 0%nat = Some (mkMultiNode (Some nms) "ckpt" "minidb") /\
               map fst nms = ["a"; "b"]) /\
  MultiNodeSnapshotManager_init 0 ["a"; "b"] (Some 4%nat)
    (result_world (MultiNodeSnapshotManager_init 0 ["a"; "b"] None demo_mn_world)) =
  (if bool_decide (["a"; "b"] = ["a"; "b"]) then
     Ok RNone (result_world (MultiNodeSnapshotManager_init 0 ["a"; "b"] None demo_mn_world))
   else Err AssertionError (result_world (MultiNodeSnapshotManager_init 0 ["a"; "b"] None demo_mn_world))).
Proof.
  assert (Hf : w_mns demo_mn_world !! 0%nat = Some (MultiNodeSnapshotManager_new "ckpt" "minidb"))
    by (vm_compute; reflexivity).
  split; [exact Hf|].
  exact (MultiNode_init_second_call 0 "ckpt" "minidb" demo_mn_world ["a"; "b"] ["a"; "b"]
           None (Some 4%nat) Hf).
Defined.

(** * Further properties of the module *)

(** ** SnapshotManager.init: the single-node assertion *)

Lemma SnapshotManager_init_bad_nodes node self (l : list Node) r w :
  length l <> 1%nat ->
  SnapshotManager_init node self (Some l) r w = Err AssertionError w.
Proof.
  intros Hl.
  assert (Ha : assert (match Some l with
                       | None => true
                       | Some l => (length l =? 1)%nat
                       end) w = Err AssertionError w).
  { unfold assert. destruct (Nat.eqb_spec (length l) 1); [contradiction|reflexivity]. }
  unfold SnapshotManager_init. exact (bind_of_Err _ _ _ _ _ Ha).
Qed.

(** [SnapshotManager.init] given a node list whose length is not one
    raises AssertionError before touching anything: no manager state,
    no task, no fresh id. *)
Theorem SnapshotManager_init_single_node_only (node : option Node) (self : nat)
    (l : list Node) (r : option nat) (w : World) (Hl : length l <> 1%nat) :
  SnapshotManager_init node self (Some l) r w = Err AssertionError w.
Proof. exact (SnapshotManager_init_bad_nodes node self l r w Hl). Qed.

(** A JobRunner with a (single-node) SnapshotManager whose job's
    [init_group] uses a number of nodes other than one raises
    AssertionError at [snapshot.init], right after [init_group] ran (from
    scratch) or at once (resumed): no epoch and no snapshot task runs. *)
Theorem JobRunner_single_manager_needs_one_node (fuel : nat) (self : JobRunner) (r : nat)
    (w : World)
    (Hs : snapshot self = Some (SingleManager r))
    (Hn : length (used_nodes (init_group (job self))) <> 1%nat) :
  match resume_from_epoch self with
  | None => forall w1, client_run LInitGroup (RGroup (init_group (job self))) w = Ok tt w1 ->
              JobRunner_call fuel self w = Err AssertionError w1
  | Some _ => JobRunner_call fuel self w = Err AssertionError w
  end.
Proof.
  assert (Hi : forall rr w0,
            snap_init (SingleManager r) (used_nodes (init_group (job self))) rr w0
            = Err AssertionError w0).
  { intros rr w0. unfold snap_init.
    exact (bind_of_Err _ _ _ _ _ (SnapshotManager_init_bad_nodes _ _ _ _ _ Hn)). }
  unfold JobRunner_call. cbv zeta. rewrite Hs.
  destruct (resume_from_epoch self) as [E|].
  - rewrite (bind_of_Ok _ _ w tt w) by reflexivity. cbn beta iota.
    exact (bind_of_Err _ _ _ _ _ (bind_of_Err _ _ _ _ _ (Hi _ w))).
  - intros w1 H1. rewrite (bind_of_Ok _ _ _ _ _ H1). cbn beta iota.
    exact (bind_of_Err _ _ _ _ _ (bind_of_Err _ _ _ _ _ (Hi _ w1))).
Qed.

(** ** A job without stop signals *)

Lemma epoch_loop_no_signals fuel self k w e w' :
  stop_signals (job self) = [] -> epoch_loop fuel self k w <> Ok e w'.
Proof.
  intros Hns. revert k w. induction fuel as [|fuel IH]; intros k w H; [discriminate|].
  simpl in H.
  apply bind_Ok in H as (u1 & w1 & _ & H).
  apply bind_Ok in H as (vs & w2 & Hf & H).
  rewrite Hns in Hf. inversion Hf; subst vs w2.
  apply bind_Ok in H as (u2 & w3 & _ & H).
  apply bind_Ok in H as (stop & w4 & Hany & H).
  inversion Hany; subst stop w4.
  exact (IH _ _ H).
Qed.

(** [any([])] is false: a JobRunner whose job has no stop signal never
    leaves its epoch loop, so the call never returns (it can only raise). *)
Theorem JobRunner_no_stop_signal_never_returns (fuel : nat) (self : JobRunner) (w : World)
    (Hns : stop_signals (job self) = []) :
  forall e w', JobRunner_call fuel self w <> Ok e w'.
Proof.
  intros e w' H. unfold JobRunner_call in H. cbv zeta in H.
  apply bind_Ok in H as (u0 & w0 & _ & H).
  apply bind_Ok in H as (u1 & w1 & _ & H).
  apply bind_Ok in H as (e1 & w2 & Hl & _).
  exact (epoch_loop_no_signals _ _ _ _ _ _ Hns Hl).
Qed.

(** ** A JobRunner without a snapshot manager *)

Lemma loop_labels_no_manager self es :
  snapshot self = None -> loop_labels self es = map LEpochGroup es.
Proof.
  intros Hs. unfold loop_labels. rewrite Hs.
  induction es as [|e es IH]; [reflexivity|]. simpl. now rewrite IH.
Qed.

(** Without a snapshot manager, a completed run's [client.run] calls are
    [init_group] (only from scratch), [epoch_group] once for each epoch
    from the first one to the returned one, then [exit_group]: a resumed
    run restores nothing and skips [init_group]. *)
Theorem JobRunner_without_manager_runs (fuel : nat) (self : JobRunner) (w : World)
    (e : nat) (w' : World)
    (Hs : snapshot self = None)
    (Hrun : JobRunner_call fuel self w = Ok e w') :
  (first_epoch self <= e)%nat /\
  exists new, w_log w' = w_log w ++ new /\
    run_labels new =
      match resume_from_epoch self with None => [LInitGroup] | Some _ => [] end
      ++ map LEpochGroup (seq (first_epoch self) (S (e - first_epoch self)))
      ++ [LExitGroup].
Proof.
  destruct (JobRunner_call_labels _ _ _ _ _ Hrun) as (Hle & new & L & Hl).
  split; [exact Hle|]. exists new. split; [exact L|].
  rewrite Hl, (loop_labels_no_manager _ _ Hs), Hs.
  destruct (resume_from_epoch self); reflexivity.
Qed.

(** ** MultiNodeSnapshotManager before init, and init with no node *)

(** [load] and [save] of a MultiNodeSnapshotManager whose [init] never
    ran raise AssertionError ('init must be called first') and change
    nothing. *)
Theorem MultiNode_load_save_before_init (self : nat) (w : World)
    (m : MultiNodeSnapshotManager)
    (Hm : w_mns w !! self = Some m) (Hn : mn_node_managers m = None) (epoch : nat) :
  MultiNodeSnapshotManager_load self epoch w = Err AssertionError w /\
  MultiNodeSnapshotManager_save self epoch w = Err AssertionError w.
Proof.
  unfold MultiNodeSnapshotManager_load, MultiNodeSnapshotManager_save, _task_group.
  split; rewrite (bind_of_Ok _ _ _ _ _ (get_mn_found _ _ _ Hm)); cbn beta;
    rewrite Hn; reflexivity.
Qed.

(** A first [init] with an empty node list records an empty mapping and
    then raises NameError (the loop variable [node] is unbound); after it,
    [load] and [save] no longer fail: they return an empty GLOBAL task
    group. *)
Theorem MultiNode_init_no_nodes (self : nat) (prefix db_type : string) (w : World)
    (Hfresh : w_mns w !! self = Some (MultiNodeSnapshotManager_new prefix db_type))
    (r : option nat) :
  let w1 := set_mns (<[self := mkMultiNode (Some []) prefix db_type]> (w_mns w)) w in
  MultiNodeSnapshotManager_init self [] r w = Err NameError w1 /\
  (forall epoch,
     MultiNodeSnapshotManager_load self epoch w1 = Ok (mkTaskGroup GLOBAL []) w1 /\
     MultiNodeSnapshotManager_save self epoch w1 = Ok (mkTaskGroup GLOBAL []) w1).
Proof.
  intros w1. split.
  - unfold MultiNodeSnapshotManager_init.
    rewrite (bind_of_Ok _ _ _ _ _ (get_mn_found _ _ _ Hfresh)). reflexivity.
  - intros epoch.
    assert (Hm : w_mns w1 !! self = Some (mkMultiNode (Some []) prefix db_type))
      by apply lookup_insert_eq.
    unfold MultiNodeSnapshotManager_load, MultiNodeSnapshotManager_save, _task_group.
    split; rewrite (bind_of_Ok _ _ _ _ _ (get_mn_found _ _ _ Hm)); reflexivity.
Qed.

(** ** Checkpoint keys of distinct epochs are distinct *)

Lemma value_aux_zeros k d :
  value_aux 0 (String.append (zeros k) d) = value_aux 0 d.
Proof. induction k as [|k IH]; [reflexivity|]. exact IH. Qed.

Lemma string_append_inv_l a x y :
  String.append a x = String.append a y -> x = y.
Proof. induction a as [|c a IH]; [easy|]. intros H. injection H. exact IH. Qed.

(** [%06d] reads back as the epoch and has at least six characters, so
    one manager's checkpoint keys for two different epochs are never the
    same key. *)
Theorem dbname_distinct_epochs (s : SnapshotManager) (e : nat) :
  decimal_value (pct_06d e) = e /\
  (6 <= String.length (pct_06d e))%nat /\
  (forall e', _dbname s e = _dbname s e' -> e = e').
Proof.
  assert (Hv : forall n, decimal_value (pct_06d n) = n).
  { intros n. unfold decimal_value, pct_06d. rewrite value_aux_zeros.
    unfold decimal. rewrite decimal_aux_value; [reflexivity|lia]. }
  split; [apply Hv|]. split.
  - unfold pct_06d. rewrite string_append_length, zeros_length. lia.
  - intros e' H. unfold _dbname in H.
    apply string_append_inv_l in H. injection H as H.
    change (pct_06d e = pct_06d e') in H.
    rewrite <- (Hv e), <- (Hv e'), H. reflexivity.
Qed.

(** ** SnapshotManager.save and load with resolved names *)

Lemma SnapshotManager_save_resolved node self epoch w s o names :
  w_sms w !! self = Some s -> sm_names_output s = Some o ->
  w_outputs w !! to_ref o = Some (VNames names) ->
  SnapshotManager_save node self epoch w =
    Ok (mkTask node (Some (mkNet "snapshot_save"
                             [Save names (_dbname s epoch) (sm_db_type s) true])) [])
       (set_log (w_log w ++ [EvFetch o]) w).
Proof.
  intros Hs Ho Hv. unfold SnapshotManager_save.
  rewrite (bind_of_Ok _ _ _ _ _ (blob_list_resolved _ _ _ _ _ Hs Ho Hv)). cbn beta.
  assert (Hs' : w_sms (set_log (w_log w ++ [EvFetch o]) w) !! self = Some s) by exact Hs.
  rewrite (bind_of_Ok _ _ _ _ _ (get_sm_found _ _ _ Hs')). reflexivity.
Qed.

Lemma SnapshotManager_load_resolved node self epoch w s o names :
  w_sms w !! self = Some s -> sm_names_output s = Some o ->
  w_outputs w !! to_ref o = Some (VNames names) ->
  SnapshotManager_load node self epoch w =
    Ok (mkTask node (Some (mkNet "get_blob_list"
                             [Load names (_dbname s epoch) (sm_db_type s) true])) [])
       (set_log (w_log w ++ [EvFetch o]) w).
Proof.
  intros Hs Ho Hv. unfold SnapshotManager_load.
  rewrite (bind_of_Ok _ _ _ _ _ (blob_list_resolved _ _ _ _ _ Hs Ho Hv)). cbn beta.
  assert (Hs' : w_sms (set_log (w_log w ++ [EvFetch o]) w) !! self = Some s) by exact Hs.
  rewrite (bind_of_Ok _ _ _ _ _ (get_sm_found _ _ _ Hs')). reflexivity.
Qed.

(** Once a manager's names output holds a list of names, [blob_list()]
    returns that list, and [save(epoch)] / [load(epoch)] build a task
    with no output whose single operator saves / loads exactly those
    blobs; each of the three only fetches the names output once and
    changes nothing else (no manager state, no fresh id), so they can be
    rebuilt at every epoch. *)
Theorem snapshot_tasks_with_resolved_names (node : option Node) (self epoch : nat)
    (w : World) (s : SnapshotManager) (o : TaskOutput) (names : list string)
    (Hs : w_sms w !! self = Some s) (Ho : sm_names_output s = Some o)
    (Hv : w_outputs w !! to_ref o = Some (VNames names)) :
  blob_list self w = Ok names (set_log (w_log w ++ [EvFetch o]) w) /\
  SnapshotManager_save node self epoch w =
    Ok (mkTask node (Some (mkNet "snapshot_save"
                             [Save names (_dbname s epoch) (sm_db_type s) true])) [])
       (set_log (w_log w ++ [EvFetch o]) w) /\
  SnapshotManager_load node self epoch w =
    Ok (mkTask node (Some (mkNet "get_blob_list"
                             [Load names (_dbname s epoch) (sm_db_type s) true])) [])
       (set_log (w_log w ++ [EvFetch o]) w).
Proof.
  split; [exact (blob_list_resolved _ _ _ _ _ Hs Ho Hv)|]. split.
  - exact (SnapshotManager_save_resolved _ _ _ _ _ _ _ Hs Ho Hv).
  - exact (SnapshotManager_load_resolved _ _ _ _ _ _ _ Hs Ho Hv).
Qed.

(** ** MultiNodeSnapshotManager.save and load after init *)

Lemma mapM_resolved_builds (f : Node * nat -> M Task)
    (mk : Node -> SnapshotManager -> list string -> Task)
    (Hf : forall n m w s o names,
       w_sms w !! m = Some s -> sm_names_output s = Some o ->
       w_outputs w !! to_ref o = Some (VNames names) ->
       f (n, m) w = Ok (mk n s names) (set_log (w_log w ++ [EvFetch o]) w)) :
  forall nms w,
  Forall (fun '(n, m) => exists s o names, w_sms w !! m = Some s /\
            sm_names_output s = Some o /\ w_outputs w !! to_ref o = Some (VNames names)) nms ->
  exists ts w', mapM f nms w = Ok ts w' /\
    Forall2 (fun '(n, m) t => exists s o names, w_sms w !! m = Some s /\
               sm_names_output s = Some o /\
               w_outputs w !! to_ref o = Some (VNames names) /\ t = mk n s names) nms ts.
Proof.
  induction nms as [|[n m] l IH]; intros w HF.
  - exists [], w. split; [reflexivity|constructor].
  - inversion HF as [|x l' Hx Hl]; subst.
    destruct Hx as (s & o & names & Hs & Ho & Hv).
    destruct (IH (set_log (w_log w ++ [EvFetch o]) w) Hl) as (ts & w' & Hmap & HF2).
    exists (mk n s names :: ts), w'. split.
    + cbn [mapM]. rewrite (bind_of_Ok _ _ _ _ _ (Hf _ _ _ _ _ _ Hs Ho Hv)). cbn beta.
      rewrite (bind_of_Ok _ _ _ _ _ Hmap). reflexivity.
    + constructor; [exists s, o, names; auto|exact HF2].
Qed.

(** After [init] recorded the node managers, [save(epoch)] and
    [load(epoch)] of a MultiNodeSnapshotManager, when every node's
    manager has its names resolved, build a GLOBAL task group with one
    task per recorded node, in the recorded order, created under that
    node, saving / loading that node's blob list under that node
    manager's own key for the epoch. *)
Theorem MultiNode_save_load_after_init (self : nat) (nms : list (Node * nat))
    (prefix db_type : string) (w : World) (epoch : nat)
    (Hm : w_mns w !! self = Some (mkMultiNode (Some nms) prefix db_type))
    (Hres : Forall (fun '(n, m) => exists s o names, w_sms w !! m = Some s /\
              sm_names_output s = Some o /\ w_outputs w !! to_ref o = Some (VNames names)) nms) :
  (exists g w', MultiNodeSnapshotManager_save self epoch w = Ok g w' /\
     tg_workspace_type g = GLOBAL /\
     Forall2 (fun '(n, m) t => exists s o names, w_sms w !! m = Some s /\
                sm_names_output s = Some o /\
                w_outputs w !! to_ref o = Some (VNames names) /\
                t = mkTask (Some n) (Some (mkNet "snapshot_save"
                       [Save names (_dbname s epoch) (sm_db_type s) true])) [])
             nms (tg_tasks g)) /\
  (exists g w', MultiNodeSnapshotManager_load self epoch w = Ok g w' /\
     tg_workspace_type g = GLOBAL /\
     Forall2 (fun '(n, m) t => exists s o names, w_sms w !! m = Some s /\
                sm_names_output s = Some o /\
                w_outputs w !! to_ref o = Some (VNames names) /\
                t = mkTask (Some n) (Some (mkNet "get_blob_list"
                       [Load names (_dbname s epoch) (sm_db_type s) true])) [])
             nms (tg_tasks g)).
Proof.
  split.
  - unfold MultiNodeSnapshotManager_save, _task_group.
    rewrite (bind_of_Ok _ _ _ _ _ (get_mn_found _ _ _ Hm)). cbn [mn_node_managers].
    match goal with
    | |- context [mapM ?f nms] =>
        destruct (mapM_resolved_builds f
                    (fun n s names => mkTask (Some n) (Some (mkNet "snapshot_save"
                       [Save names (_dbname s epoch) (sm_db_type s) true])) [])
                    (fun n m w0 s o names Hs Ho Hv =>
                       SnapshotManager_save_resolved (Some n) m epoch w0 s o names Hs Ho Hv)
                    nms w Hres) as (ts & w' & Hmap & HF)
    end.
    rewrite (bind_of_Ok _ _ _ _ _ Hmap).
    eexists _, _. split; [reflexivity|]. split; [reflexivity|exact HF].
  - unfold MultiNodeSnapshotManager_load, _task_group.
    rewrite (bind_of_Ok _ _ _ _ _ (get_mn_found _ _ _ Hm)). cbn [mn_node_managers].
    match goal with
    | |- context [mapM ?f nms] =>
        destruct (mapM_resolved_builds f
                    (fun n s names => mkTask (Some n) (Some (mkNet "get_blob_list"
                       [Load names (_dbname s epoch) (sm_db_type s) true])) [])
                    (fun n m w0 s o names Hs Ho Hv =>
                       SnapshotManager_load_resolved (Some n) m epoch w0 s o names Hs Ho Hv)
                    nms w Hres) as (ts & w' & Hmap & HF)
    end.
    rewrite (bind_of_Ok _ _ _ _ _ Hmap).
    eexists _, _. split; [reflexivity|]. split; [reflexivity|exact HF].
Qed.

(** ** MultiNodeSnapshotManager.init, first call *)

(** [SnapshotManager.init] for a single node on an existing manager. *)
Lemma SnapshotManager_init_effect node m (x : Node) r w s :
  w_sms w !! m = Some s ->
  SnapshotManager_init node m (Some [x]) r w =
    Ok (mkTask node (Some (mkNet "get_blob_list"
          [match r with
           | None => GetAllBlobNames (sm_blob_names s) false
           | Some e => Load [sm_blob_names s] (_dbname s e) (sm_db_type s) true
           end])) [mkTaskOutput (w_next w) (sm_blob_names s)])
       (set_sms (<[m := set_names_output (Some (mkTaskOutput (w_next w) (sm_blob_names s))) s]>
                   (w_sms w)) (set_next (S (w_next w)) w)).
Proof.
  intros Hs. unfold SnapshotManager_init.
  rewrite (bind_of_Ok _ _ w tt w) by reflexivity. cbn beta.
  rewrite (bind_of_Ok _ _ _ _ _ (get_sm_found _ _ _ Hs)). reflexivity.
Qed.

Lemma init_body_alloc self prefix db_type x acc w :
  w_mns w !! self = Some (mkMultiNode (Some acc) prefix db_type) ->
  exists w1,
    (manager ← SnapshotManager_alloc (os_path_join prefix x) db_type;
     m' ← get_mn self;
     put_mn self (set_node_managers
                    (Some (default [] (mn_node_managers m') ++ [(x, manager)])) m')) w
      = Ok tt w1 /\
    w_mns w1 !! self = Some (mkMultiNode (Some (acc ++ [(x, w_next w)])) prefix db_type) /\
    w_next w1 = S (w_next w) /\
    w_sms w1 = <[w_next w := SnapshotManager_new (os_path_join prefix x) db_type]> (w_sms w).
Proof.
  intros Hw.
  set (w0 := set_sms (<[w_next w := SnapshotManager_new (os_path_join prefix x) db_type]>
                        (w_sms w)) (set_next (S (w_next w)) w)).
  assert (Ha : SnapshotManager_alloc (os_path_join prefix x) db_type w = Ok (w_next w) w0)
    by reflexivity.
  assert (Hw0 : w_mns w0 !! self = Some (mkMultiNode (Some acc) prefix db_type)) by exact Hw.
  eexists. split.
  - rewrite (bind_of_Ok _ _ _ _ _ Ha). cbn beta.
    rewrite (bind_of_Ok _ _ _ _ _ (get_mn_found _ _ _ Hw0)). reflexivity.
  - split; [apply lookup_insert_eq|]. split; reflexivity.
Qed.

Lemma init_loop_alloc self prefix db_type (f : Node -> M unit)
    (Hf : forall x acc w,
       w_mns w !! self = Some (mkMultiNode (Some acc) prefix db_type) ->
       exists w1, f x w = Ok tt w1 /\
         w_mns w1 !! self = Some (mkMultiNode (Some (acc ++ [(x, w_next w)])) prefix db_type) /\
         w_next w1 = S (w_next w) /\
         w_sms w1 = <[w_next w := SnapshotManager_new (os_path_join prefix x) db_type]> (w_sms w)) :
  forall nodes acc w,
  w_mns w !! self = Some (mkMultiNode (Some acc) prefix db_type) ->
  exists nms w', forM_ nodes f w = Ok tt w' /\
    w_mns w' !! self = Some (mkMultiNode (Some (acc ++ nms)) prefix db_type) /\
    map fst nms = nodes /\
    map snd nms = seq (w_next w) (length nodes) /\
    (forall k, (k < w_next w)%nat -> w_sms w' !! k = w_sms w !! k) /\
    Forall (fun '(n, m) =>
              w_sms w' !! m = Some (SnapshotManager_new (os_path_join prefix n) db_type)) nms.
Proof.
  induction nodes as [|x l IH]; intros acc w Hw.
  - exists [], w. rewrite app_nil_r. repeat split; auto.
  - destruct (Hf x acc w Hw) as (w1 & Hx & Hm1 & Hn1 & Hs1).
    destruct (IH _ _ Hm1) as (nms & w' & Hl & Hm & Hfst & Hsnd & Hfr & HF).
    exists ((x, w_next w) :: nms), w'. split; [|split; [|split; [|split; [|split]]]].
    + cbn [forM_]. rewrite (bind_of_Ok _ _ _ _ _ Hx). exact Hl.
    + rewrite <- app_assoc in Hm. exact Hm.
    + simpl. congruence.
    + simpl. rewrite Hsnd, Hn1. reflexivity.
    + intros k Hk. rewrite Hfr by lia. rewrite Hs1. apply lookup_insert_ne. lia.
    + constructor; [|exact HF].
      rewrite Hfr by lia. rewrite Hs1. apply lookup_insert_eq.
Qed.

Lemma mapM_inits (f : Node * nat -> M Task)
    (mk : Node -> SnapshotManager -> TaskOutput -> Task)
    (S_of : Node -> SnapshotManager)
    (Hf : forall n m w s, w_sms w !! m = Some s ->
       f (n, m) w =
         Ok (mk n s (mkTaskOutput (w_next w) (sm_blob_names s)))
            (set_sms (<[m := set_names_output (Some (mkTaskOutput (w_next w) (sm_blob_names s))) s]>
                        (w_sms w)) (set_next (S (w_next w)) w))) :
  forall nms w, NoDup (map snd nms) ->
  Forall (fun '(n, m) => w_sms w !! m = Some (S_of n)) nms ->
  exists ts w', mapM f nms w = Ok ts w' /\
    w_mns w' = w_mns w /\
    (forall k, k ∉ map snd nms -> w_sms w' !! k = w_sms w !! k) /\
    Forall2 (fun '(n, m) t => exists o, t = mk n (S_of n) o /\
               to_name o = sm_blob_names (S_of n) /\
               w_sms w' !! m = Some (set_names_output (Some o) (S_of n))) nms ts.
Proof.
  induction nms as [|[n m] l IH]; intros w Hnd HF.
  - exists [], w. repeat split; [constructor].
  - inversion HF as [|x l' Hx Hl]; subst.
    apply NoDup_cons in Hnd as [Hnin Hnd].
    set (o := mkTaskOutput (w_next w) (sm_blob_names (S_of n))).
    set (w1 := set_sms (<[m := set_names_output (Some o) (S_of n)]> (w_sms w))
                 (set_next (S (w_next w)) w)).
    assert (Hl1 : Forall (fun '(n, m) => w_sms w1 !! m = Some (S_of n)) l).
    { apply Forall_forall. intros [n' m'] Hin.
      rewrite Forall_forall in Hl. specialize (Hl _ Hin). simpl in Hl.
      assert (m' <> m).
      { intros ->. apply Hnin. apply list_elem_of_In. apply list_elem_of_In in Hin.
        apply (in_map snd) in Hin. exact Hin. }
      simpl. rewrite lookup_insert_ne by congruence. exact Hl. }
    destruct (IH w1 Hnd Hl1) as (ts & w' & Hmap & Hmns & Hfr & HF2).
    exists (mk n (S_of n) o :: ts), w'. split; [|split; [|split]].
    + cbn [mapM]. rewrite (bind_of_Ok _ _ _ _ _ (Hf _ _ _ _ Hx)). cbn beta.
      rewrite (bind_of_Ok _ _ _ _ _ Hmap). reflexivity.
    + rewrite Hmns. reflexivity.
    + intros k Hk. rewrite Hfr by set_solver. simpl.
      apply lookup_insert_ne. set_solver.
    + constructor; [|exact HF2].
      exists o. split; [reflexivity|]. split; [reflexivity|].
      rewrite Hfr by exact Hnin. apply lookup_insert_eq.
Qed.

(** A first [init] on a fresh MultiNodeSnapshotManager with a non-empty
    node list records one new SnapshotManager per node, in the given
    order, each with its own reference and with db [os.path.join(prefix,
    node)]; it returns a GLOBAL task group with one task per node, in
    that order, created under that node: the node manager's [init] task
    (GetAllBlobNames, or a Load of the names blob from that node's own
    checkpoint of [retrieve_from_epoch]), whose single output becomes
    that node manager's names output. *)
Theorem MultiNode_first_init (self : nat) (prefix db_type : string) (w : World)
    (nodes : list Node) (r : option nat)
    (Hfresh : w_mns w !! self = Some (MultiNodeSnapshotManager_new prefix db_type))
    (Hne : nodes <> []) :
  exists g w' nms,
    MultiNodeSnapshotManager_init self nodes r w = Ok (RGroup g) w' /\
    w_mns w' !! self = Some (mkMultiNode (Some nms) prefix db_type) /\
    map fst nms = nodes /\ NoDup (map snd nms) /\
    tg_workspace_type g = GLOBAL /\
    Forall2 (fun '(n, m) t => exists o,
               t = mkTask (Some n) (Some (mkNet "get_blob_list"
                     [match r with
                      | None => GetAllBlobNames "blob_names" false
                      | Some e => Load ["blob_names"]
                                    (_dbname (SnapshotManager_new (os_path_join prefix n) db_type) e)
                                    db_type true
                      end])) [o] /\
               to_name o = "blob_names" /\
               w_sms w' !! m = Some (set_names_output (Some o)
                                      (SnapshotManager_new (os_path_join prefix n) db_type)))
            nms (tg_tasks g).
Proof.
  unfold MultiNodeSnapshotManager_init.
  rewrite (bind_of_Ok _ _ _ _ _ (get_mn_found _ _ _ Hfresh)).
  cbn [MultiNodeSnapshotManager_new mn_node_managers mn_db_prefix mn_db_type].
  set (w0 := set_mns (<[self := mkMultiNode (Some []) prefix db_type]> (w_mns w)) w).
  assert (Hp : put_mn self (set_node_managers (Some [])
                 (MultiNodeSnapshotManager_new prefix db_type)) w = Ok tt w0)
    by reflexivity.
  rewrite (bind_of_Ok _ _ _ _ _ Hp).
  assert (Hw0 : w_mns w0 !! self = Some (mkMultiNode (Some []) prefix db_type))
    by apply lookup_insert_eq.
  match goal with
  | |- context [forM_ nodes ?f] =>
      destruct (init_loop_alloc self prefix db_type f
                  (fun x acc w' Hw' => init_body_alloc self prefix db_type x acc w' Hw')
                  nodes [] w0 Hw0) as (nms & w2 & Hl & Hm & Hfst & Hsnd & _ & HF)
  end.
  rewrite (bind_of_Ok _ _ _ _ _ Hl). cbn beta.
  destruct (last nodes) as [ln|] eqn:Hlast; [|apply last_None in Hlast; contradiction].
  rewrite app_nil_l in Hm.
  assert (Hnd : NoDup (map snd nms)) by (rewrite Hsnd; apply NoDup_seq).
  match goal with
  | |- context [_task_group self ?func] =>
      destruct (mapM_inits (fun '(node, manager) => func (Some node) manager)
                  (fun n s o => mkTask (Some n) (Some (mkNet "get_blob_list"
                     [match r with
                      | None => GetAllBlobNames (sm_blob_names s) false
                      | Some e => Load [sm_blob_names s] (_dbname s e) (sm_db_type s) true
                      end])) [o])
                  (fun n => SnapshotManager_new (os_path_join prefix n) db_type)
                  (fun n m w' s Hs => SnapshotManager_init_effect (Some n) m ln r w' s Hs)
                  nms w2 Hnd HF) as (ts & w' & Hmap & Hmns & _ & HF2);
      assert (Htg : _task_group self func w2 = Ok (mkTaskGroup GLOBAL ts) w')
  end.
  { unfold _task_group.
    rewrite (bind_of_Ok _ _ _ _ _ (get_mn_found _ _ _ Hm)). cbn [mn_node_managers].
    rewrite (bind_of_Ok _ _ _ _ _ Hmap). reflexivity. }
  rewrite (bind_of_Ok _ _ _ _ _ Htg).
  exists (mkTaskGroup GLOBAL ts), w', nms.
  split; [reflexivity|]. split; [rewrite Hmns; exact Hm|].
  split; [exact Hfst|]. split; [exact Hnd|]. split; [reflexivity|].
  exact HF2.
Qed.

(** ** Several stop signals *)

(** Registering stop signals one after the other keeps [init_group] and
    [exit_group], appends one output per call to the stop signals, in call
    order (the output itself for a TaskOutput, the output of a new task
    for a blob reference), and appends to [epoch_group] exactly the
    wrapping tasks of the blob references, in order; any object of
    another kind among them makes the calls raise AssertionError. *)
Theorem add_stop_signals_accumulate (self : Job) (objs : list PyObject) (w : World) :
  (Forall (fun x => x <> PyOther) objs ->
   exists outs j w', add_stop_signals self objs w = Ok j w' /\
     init_group j = init_group self /\ exit_group j = exit_group self /\
     tg_workspace_type (epoch_group j) = tg_workspace_type (epoch_group self) /\
     stop_signals j = stop_signals self ++ outs /\
     tg_tasks (epoch_group j) =
       tg_tasks (epoch_group self) ++
       omap (fun '(x, o) => match x with
                            | PyBlobReference _ => Some (mkTask None None [o])
                            | _ => None
                            end) (zip objs outs) /\
     Forall2 (fun x o => match x with
                         | PyBlobReference b => to_name o = b
                         | PyTaskOutput o' => o = o'
                         | PyOther => False
                         end) objs outs) /\
  (PyOther ∈ objs -> exists w', add_stop_signals self objs w = Err AssertionError w').
Proof.
  revert self w. induction objs as [|x l IH]; intros self w.
  - split.
    + intros _. exists [], self, w. rewrite !app_nil_r.
      repeat split; constructor.
    + intros Hin. apply elem_of_nil in Hin. contradiction.
  - split.
    + intros Hok. apply Forall_cons in Hok as [Hx Hl].
      destruct x as [b|o|]; [| |contradiction].
      * set (o := mkTaskOutput (w_next w) b).
        set (j1 := mkJob (init_group self) (add_task (mkTask None None [o]) (epoch_group self))
                         (exit_group self) (stop_signals self ++ [o])).
        assert (H1 : add_stop_signal self (PyBlobReference b) w = Ok j1 (set_next (S (w_next w)) w))
          by reflexivity.
        destruct (proj1 (IH j1 (set_next (S (w_next w)) w)) Hl)
          as (outs & j & w' & Hrun & Hi & He & Ht & Hst & Htasks & HF).
        exists (o :: outs), j, w'. cbn [add_stop_signals].
        rewrite (bind_of_Ok _ _ _ _ _ H1).
        split; [exact Hrun|]. split; [exact Hi|]. split; [exact He|]. split; [exact Ht|].
        split; [rewrite Hst; simpl; rewrite <- app_assoc; reflexivity|].
        split; [rewrite Htasks; simpl; rewrite <- app_assoc; reflexivity|].
        constructor; [reflexivity|exact HF].
      * set (j1 := mkJob (init_group self) (epoch_group self) (exit_group self)
                         (stop_signals self ++ [o])).
        assert (H1 : add_stop_signal self (PyTaskOutput o) w = Ok j1 w) by reflexivity.
        destruct (proj1 (IH j1 w) Hl)
          as (outs & j & w' & Hrun & Hi & He & Ht & Hst & Htasks & HF).
        exists (o :: outs), j, w'. cbn [add_stop_signals].
        rewrite (bind_of_Ok _ _ _ _ _ H1).
        split; [exact Hrun|]. split; [exact Hi|]. split; [exact He|]. split; [exact Ht|].
        split; [rewrite Hst; simpl; rewrite <- app_assoc; reflexivity|].
        split; [rewrite Htasks; reflexivity|].
        constructor; [reflexivity|exact HF].
    + intros Hin. cbn [add_stop_signals].
      destruct x as [b|o|].
      * apply elem_of_cons in Hin as [Hin|Hin]; [discriminate|].
        set (o := mkTaskOutput (w_next w) b).
        set (j1 := mkJob (init_group self) (add_task (mkTask None None [o]) (epoch_group self))
                         (exit_group self) (stop_signals self ++ [o])).
        assert (H1 : add_stop_signal self (PyBlobReference b) w = Ok j1 (set_next (S (w_next w)) w))
          by reflexivity.
        destruct (proj2 (IH j1 (set_next (S (w_next w)) w)) Hin) as (w' & H).
        exists w'. rewrite (bind_of_Ok _ _ _ _ _ H1). exact H.
      * apply elem_of_cons in Hin as [Hin|Hin]; [discriminate|].
        set (j1 := mkJob (init_group self) (epoch_group self) (exit_group self)
                         (stop_signals self ++ [o])).
        assert (H1 : add_stop_signal self (PyTaskOutput o) w = Ok j1 w) by reflexivity.
        destruct (proj2 (IH j1 w) Hin) as (w' & H).
        exists w'. rewrite (bind_of_Ok _ _ _ _ _ H1). exact H.
      * exists w. reflexivity.
Qed.

(** * Witnesses of the further properties *)

Lemma SnapshotManager_init_single_node_only_witness :
  length ["a"; "b"] <> 1%nat /\
  SnapshotManager_init None 100 (Some ["a"; "b"]) None demo_world = Err AssertionError demo_world.
Proof.
  split; [simpl; lia|].
  exact (SnapshotManager_init_single_node_only None 100 ["a"; "b"] None demo_world
           ltac:(simpl; lia)).
Defined.

Lemma JobRunner_single_manager_needs_one_node_witness :
  snapshot (mkJobRunner Job_new (Some (SingleManager 100)) (Some 3%nat)) = Some (SingleManager 100) /\
  length (used_nodes (init_group Job_new)) <> 1%nat /\
  JobRunner_call 5 (mkJobRunner Job_new (Some (SingleManager 100)) (Some 3%nat)) demo_world
    = Err AssertionError demo_world.
Proof.
  split; [reflexivity|]. split; [simpl; lia|].
  exact (JobRunner_single_manager_needs_one_node 5
           (mkJobRunner Job_new (Some (SingleManager 100)) (Some 3%nat)) 100 demo_world
           eq_refl ltac:(simpl; lia)).
Defined.

Lemma JobRunner_no_stop_signal_never_returns_witness :
  stop_signals (job (mkJobRunner Job_new None None)) = [] /\
  forall e w', JobRunner_call 5 (mkJobRunner Job_new None None) empty_world <> Ok e w'.
Proof.
  split; [reflexivity|].
  exact (JobRunner_no_stop_signal_never_returns 5 (mkJobRunner Job_new None None)
           empty_world eq_refl).
Defined.

Lemma JobRunner_without_manager_runs_witness :
  snapshot demo_plain_runner = None /\
  JobRunner_call 10 demo_plain_runner (result_world demo_build) =
    Ok 2%nat (result_world demo_plain_run) /\
  (1 <= 2)%nat /\
  exists new, w_log (result_world demo_plain_run) = w_log (result_world demo_build) ++ new /\
    run_labels new = [LInitGroup] ++ map LEpochGroup (seq 1 2) ++ [LExitGroup].
Proof.
  assert (Hrun : JobRunner_call 10 demo_plain_runner (result_world demo_build) =
                 Ok 2%nat (result_world demo_plain_run)) by (vm_compute; reflexivity).
  split; [reflexivity|]. split; [exact Hrun|].
  exact (JobRunner_without_manager_runs 10 demo_plain_runner (result_world demo_build)
           2 (result_world demo_plain_run) eq_refl Hrun).
Defined.

Lemma MultiNode_load_save_before_init_witness :
  w_mns demo_mn_world !! 0%nat = Some (MultiNodeSnapshotManager_new "ckpt" "minidb") /\
  MultiNodeSnapshotManager_load 0 4 demo_mn_world = Err AssertionError demo_mn_world /\
  MultiNodeSnapshotManager_save 0 4 demo_mn_world = Err AssertionError demo_mn_world.
Proof.
  assert (Hm : w_mns demo_mn_world !! 0%nat = Some (MultiNodeSnapshotManager_new "ckpt" "minidb"))
    by (vm_compute; reflexivity).
  split; [exact Hm|].
  exact (MultiNode_load_save_before_init 0 demo_mn_world _ Hm eq_refl 4).
Defined.

Lemma MultiNode_init_no_nodes_witness :
  w_mns demo_mn_world !! 0%nat = Some (MultiNodeSnapshotManager_new "ckpt" "minidb") /\
  let w1 := set_mns (<[0%nat := mkMultiNode (Some []) "ckpt" "minidb"]> (w_mns demo_mn_world))
              demo_mn_world in
  MultiNodeSnapshotManager_init 0 [] None demo_mn_world = Err NameError w1 /\
  (forall epoch,
     MultiNodeSnapshotManager_load 0 epoch w1 = Ok (mkTaskGroup GLOBAL []) w1 /\
     MultiNodeSnapshotManager_save 0 epoch w1 = Ok (mkTaskGroup GLOBAL []) w1).
Proof.
  assert (Hm : w_mns demo_mn_world !! 0%nat = Some (MultiNodeSnapshotManager_new "ckpt" "minidb"))
    by (vm_compute; reflexivity).
  split; [exact Hm|].
  exact (MultiNode_init_no_nodes 0 "ckpt" "minidb" demo_mn_world Hm None).
Defined.

Lemma snapshot_tasks_with_resolved_names_witness :
  w_sms demo_named_world !! 100%nat =
    Some (set_names_output (Some (mkTaskOutput 7 "blob_names")) (SnapshotManager_new "run" "minidb")) /\
  w_outputs demo_named_world !! 7%nat = Some (VNames ["blob_names"; "w"]) /\
  blob_list 100 demo_named_world =
    Ok ["blob_names"; "w"]
       (set_log (w_log demo_named_world ++ [EvFetch (mkTaskOutput 7 "blob_names")]) demo_named_world).
Proof.
  assert (Hs : w_sms demo_named_world !! 100%nat =
    Some (set_names_output (Some (mkTaskOutput 7 "blob_names")) (SnapshotManager_new "run" "minidb")))
    by (vm_compute; reflexivity).
  assert (Hv : w_outputs demo_named_world !! 7%nat = Some (VNames ["blob_names"; "w"]))
    by (vm_compute; reflexivity).
  split; [exact Hs|]. split; [exact Hv|].
  exact (proj1 (snapshot_tasks_with_resolved_names None 100 3 demo_named_world _
                  (mkTaskOutput 7 "blob_names") ["blob_names"; "w"] Hs eq_refl Hv)).
Defined.

Lemma MultiNode_first_init_witness :
  w_mns demo_mn_world !! 0%nat = Some (MultiNodeSnapshotManager_new "ckpt" "minidb") /\
  ["a"; "b"] <> [] /\
  exists g w' nms,
    MultiNodeSnapshotManager_init 0 ["a"; "b"] None demo_mn_world = Ok (RGroup g) w' /\
    w_mns w' !! 0%nat = Some (mkMultiNode (Some nms) "ckpt" "minidb") /\
    map fst nms = ["a"; "b"] /\ NoDup (map snd nms) /\
    tg_workspace_type g = GLOBAL /\
    Forall2 (fun '(n, m) t => exists o,
               t = mkTask (Some n) (Some (mkNet "get_blob_list"
                     [GetAllBlobNames "blob_names" false])) [o] /\
               to_name o = "blob_names" /\
               w_sms w' !! m = Some (set_names_output (Some o)
                                      (SnapshotManager_new (os_path_join "ckpt" n) "minidb")))
            nms (tg_tasks g).
Proof.
  assert (Hm : w_mns demo_mn_world !! 0%nat = Some (MultiNodeSnapshotManager_new "ckpt" "minidb"))
    by (vm_compute; reflexivity).
  assert (Hne : ["a"; "b"] <> []) by (simpl; discriminate).
  split; [exact Hm|]. split; [exact Hne|].
  exact (MultiNode_first_init 0 "ckpt" "minidb" demo_mn_world ["a"; "b"] None Hm Hne).
Defined.

Lemma MultiNode_save_load_after_init_witness :
  w_mns demo_mn_ready !! 0%nat = Some (mkMultiNode (Some [("a", 1%nat); ("b", 2%nat)]) "ckpt" "minidb") /\
  Forall (fun '(n, m) => exists s o names, w_sms demo_mn_ready !! m = Some s /\
            sm_names_output s = Some o /\
            w_outputs demo_mn_ready !! to_ref o = Some (VNames names))
         [("a", 1%nat); ("b", 2%nat)] /\
  exists g w', MultiNodeSnapshotManager_save 0 5 demo_mn_ready = Ok g w' /\
     tg_workspace_type g = GLOBAL /\
     Forall2 (fun '(n, m) t => exists s o names, w_sms demo_mn_ready !! m = Some s /\
                sm_names_output s = Some o /\
                w_outputs demo_mn_ready !! to_ref o = Some (VNames names) /\
                t = mkTask (Some n) (Some (mkNet "snapshot_save"
                       [Save names (_dbname s 5) (sm_db_type s) true])) [])
             [("a", 1%nat); ("b", 2%nat)] (tg_tasks g).
Proof.
  assert (Hm : w_mns demo_mn_ready !! 0%nat =
               Some (mkMultiNode (Some [("a", 1%nat); ("b", 2%nat)]) "ckpt" "minidb"))
    by (vm_compute; reflexivity).
  assert (Hres : Forall (fun '(n, m) => exists s o names, w_sms demo_mn_ready !! m = Some s /\
            sm_names_output s = Some o /\
            w_outputs demo_mn_ready !! to_ref o = Some (VNames names))
         [("a", 1%nat); ("b", 2%nat)]).
  { vm_compute. repeat econstructor. }
  split; [exact Hm|]. split; [exact Hres|].
  exact (proj1 (MultiNode_save_load_after_init 0 _ "ckpt" "minidb" demo_mn_ready 5 Hm Hres)).
Defined.
